(** * ReportsTab: date-range filter and summary metrics

    A shallow embedding of the reporting screen [ReportsTab] (React, TypeScript)
    and of the library calls its render body makes: the [Date] constructor,
    date-fns' [startOfDay], [endOfDay] and [isWithinInterval], the array
    methods [filter], [reduce] and [map], the [Set] constructor, [console.log]
    and sonner's [toast.success].

    JavaScript objects that the component shares or that a library call
    updates in place ([Date] objects, arrays of rows) live in a heap; the
    render body and the event handlers are computations in a state-and-error
    monad over that heap, the console and the toaster.

    A [fee_paid] is a JavaScript number, an IEEE 754 binary64 value, and the
    two fee sums add such numbers in array order.

    The two loaders ([fetchRegistrations], [fetchPendingRegistrations]) are
    embedded from the point where the backend has answered: the query itself
    is not part of the repository, and its answer is an input. *)

From Stdlib Require Import Floats.
From stdpp Require Import base option list strings gmap sorting.
From Stdlib Require Import ZArith Lia Ascii.

Local Open Scope Z_scope.

(** ** JavaScript values read from a row *)

(** A column of the row as the JSON decoder delivers it: absent
    ([undefined]), [null], or a value. *)
Inductive nullable (A : Type) : Type :=
  | Undefined
  | Null
  | Val (a : A).
Arguments Undefined {A}.
Arguments Null {A}.
Arguments Val {A} a.

Global Instance nullable_eq_dec {A} `{EqDecision A} : EqDecision (nullable A).
Proof. solve_decision. Defined.

Definition nullable_to_sum {A} (v : nullable A) : bool + A :=
  match v with
  | Undefined => inl false
  | Null => inl true
  | Val a => inr a
  end.

Definition nullable_of_sum {A} (s : bool + A) : nullable A :=
  match s with
  | inl false => Undefined
  | inl true => Null
  | inr a => Val a
  end.

Global Instance nullable_countable {A} `{Countable A} : Countable (nullable A).
Proof.
  apply (inj_countable' nullable_to_sum nullable_of_sum).
  by intros [| |a].
Defined.

(** [Boolean(v)] for a string column: [undefined], [null] and the empty
    string are falsy. *)
Definition truthy (v : nullable string) : bool :=
  match v with
  | Val s => negb (String.eqb s "")
  | _ => false
  end.

(** A JavaScript number is an IEEE 754 binary64 value; [+] on numbers is
    the binary64 addition, rounding to nearest, ties to even. *)
Abbreviation js_number := float (only parsing).

(** [Boolean(n)] is false for a number that is [0], [-0] or [NaN]. *)
Definition number_falsy (n : js_number) : bool :=
  PrimFloat.eqb n 0%float || negb (PrimFloat.eqb n n).

(** [v || 0] for a numeric column: [undefined], [null], [0], [-0] and [NaN]
    are falsy. *)
Definition or_zero (v : nullable js_number) : js_number :=
  match v with
  | Val n => if number_falsy n then 0%float else n
  | _ => 0%float
  end.

(** ** The row type (interface [Registration]) *)

Record CategoryJoin := { category_name : string }.

Record PanchayathJoin := { panchayath_name : string; district : string }.

(** The columns the render body guards against absence ([approved_at ? ..],
    [fee_paid || 0], [filter(Boolean)]) and [category_id], whose falsy values
    the distinct count sees, are nullable. [fee_paid] is a JavaScript number.
    The record field [id] is written [id_]. *)
Record Registration := {
  id_ : string;
  customer_id : string;
  name : string;
  mobile_number : string;
  address : string;
  ward : string;
  agent_pro : string;
  status : string;
  fee_paid : nullable js_number;
  created_at : string;
  approved_at : nullable string;
  approved_by : string;
  expires_at : string;
  category_id : nullable string;
  panchayath_id : nullable string;
  categories : CategoryJoin;
  panchayaths : option PanchayathJoin
}.

(** ** The host: what the component imports and does not define *)

(** The component imports [isWithinInterval], [startOfDay] and [endOfDay]
    from the package date-fns, whose sources and version are not part of the
    repository. The two release lines in use differ in [isWithinInterval]:
    2.x raises [RangeError('Invalid interval')] unless start <= end, 3.x and
    later sort the two ends and never throw. The embedding follows the
    package and carries the release line as a parameter of the host. *)
Inductive Release := DateFns2 | DateFns3.

Record Host := {
  (** [new Date(s).getTime()] for a string [s]; [None] is [NaN]
      (an Invalid Date). *)
  Date_parse : string → option Z;
  (** The time value of a Date of time value [t] after
      [setHours(h, m, s, ms)], in the time zone of the host. *)
  Date_setHours : Z → Z → Z → Z → Z → Z;
  date_fns : Release
}.

(** ** Heap, console and toaster *)

(** A reference is an index into the heap. *)
Abbreviation loc := nat (only parsing).

(** A [Date] holds a time value in milliseconds since the epoch, or [NaN]. *)
Inductive Object :=
  | DateObj (tv : option Z)
  | ArrayObj (elts : list Registration).

Inductive Toast :=
  | ToastSuccess (msg : string)
  | ToastError (msg : string).

Record World := {
  heap : list Object;
  console : list (string * loc);
  toasts : list Toast
}.

Definition with_heap (w : World) (h : list Object) : World :=
  {| heap := h; console := console w; toasts := toasts w |}.

Inductive Exn :=
  | RangeError (msg : string)
  | TypeError (msg : string).

Inductive Result (A : Type) : Type :=
  | Ok (a : A)
  | Throw (e : Exn).
Arguments Ok {A} a.
Arguments Throw {A} e.

Definition M (A : Type) : Type := World → Result (A * World).

Global Instance M_ret : MRet M := λ A a w, Ok (a, w).

Global Instance M_bind : MBind M := λ A B f m w,
  match m w with
  | Ok (a, w') => f a w'
  | Throw e => Throw e
  end.

Definition throw {A} (e : Exn) : M A := λ _, Throw e.

(** [new Date(..)]: a fresh object at the end of the heap. *)
Definition alloc (o : Object) : M loc := λ w,
  Ok (length (heap w), with_heap w (heap w ++ [o])).

Definition getTime (d : loc) : M (option Z) := λ w,
  match heap w !! d with
  | Some (DateObj tv) => Ok (tv, w)
  | _ => Throw (TypeError "getTime: not a Date")
  end.

Definition setTime (d : loc) (tv : option Z) : M unit := λ w,
  match heap w !! d with
  | Some (DateObj _) => Ok (tt, with_heap w (<[d := DateObj tv]> (heap w)))
  | _ => Throw (TypeError "setTime: not a Date")
  end.

Definition getArray (a : loc) : M (list Registration) := λ w,
  match heap w !! a with
  | Some (ArrayObj elts) => Ok (elts, w)
  | _ => Throw (TypeError "not an array")
  end.

Definition console_log (msg : string) (arg : loc) : M unit := λ w,
  Ok (tt, {| heap := heap w; console := console w ++ [(msg, arg)]; toasts := toasts w |}).

Definition toast_success (msg : string) : M unit := λ w,
  Ok (tt, {| heap := heap w; console := console w; toasts := toasts w ++ [ToastSuccess msg] |}).

(** ** Numbers with NaN *)

(** [a >= b] and [a <= b] on time values: false as soon as one side is NaN. *)
Definition num_ge (a b : option Z) : bool :=
  match a, b with
  | Some x, Some y => y <=? x
  | _, _ => false
  end.

Definition num_le (a b : option Z) : bool :=
  match a, b with
  | Some x, Some y => x <=? y
  | _, _ => false
  end.

(** [[a, b].sort((x, y) => x - y)]: the pair is swapped when [a - b > 0]; a
    NaN difference counts as 0 and leaves the order. *)
Definition sort2 (a b : option Z) : option Z * option Z :=
  match a, b with
  | Some x, Some y => if 0 <? x - y then (b, a) else (a, b)
  | _, _ => (a, b)
  end.

(** ** React state of the component *)

(** The four [useState] slots that hold data, and the loading flag. A date
    bound is [undefined] or a reference to a [Date]; the two sets are
    references to arrays. *)
Record State := {
  fromDate : option loc;
  toDate : option loc;
  registrations : loc;
  pendingRegistrations : loc;
  loading : bool
}.

(** What one render shows: the filtered array and the six cards. *)
Record Render := {
  r_filteredRegistrations : loc;
  r_totalRegistrations : nat;
  r_totalFeesCollected : js_number;
  r_totalCategories : nat;
  r_totalPanchayaths : nat;
  r_pendingAmount : js_number;
  r_performance : string
}.

Section Component.
Context (host : Host).

(** *** date-fns

    [startOfDay(date)] is [const _date = toDate(date); _date.setHours(0, 0, 0,
    0); return _date], [endOfDay] the same with [setHours(23, 59, 59, 999)]:
    both work on a clone and leave their argument alone.
    [isWithinInterval(date, {start, end})] reads the three time values off
    clones, [+toDate(..)]; release 2 then throws if [!(startTime <= endTime)]
    and otherwise returns [time >= startTime && time <= endTime]; release 3
    returns the same conjunction after [[startTime, endTime].sort((a, b) => a
    - b)]. *)

(** [toDate(date)]: a clone of the argument, [new Date(+date)]. *)
Definition dateFns_toDate (date : loc) : M loc :=
  tv ← getTime date;
  alloc (DateObj tv).

(** [d.setHours(h, m, s, ms)]: replaces the local time of day in place;
    an Invalid Date stays invalid. *)
Definition setHours (d : loc) (h m s ms : Z) : M unit :=
  tv ← getTime d;
  setTime d ((λ t, Date_setHours host t h m s ms) <$> tv).

(** [startOfDay(date)] and [endOfDay(date)]. *)
Definition startOfDay (date : loc) : M loc :=
  _date ← dateFns_toDate date;
  _ ← setHours _date 0 0 0 0;
  mret _date.

Definition endOfDay (date : loc) : M loc :=
  _date ← dateFns_toDate date;
  _ ← setHours _date 23 59 59 999;
  mret _date.

(** [+toDate(date)]: the time value of a clone of the argument. *)
Definition timeOf (date : loc) : M (option Z) :=
  _date ← dateFns_toDate date;
  getTime _date.

(** [isWithinInterval(date, { start, end })]. *)
Definition isWithinInterval (date start end_ : loc) : M bool :=
  time ← timeOf date;
  startTime ← timeOf start;
  endTime ← timeOf end_;
  match date_fns host with
  | DateFns2 =>
      if negb (num_le startTime endTime)
      then throw (RangeError "Invalid interval")
      else mret (num_ge time startTime && num_le time endTime)
  | DateFns3 =>
      let '(lo, hi) := sort2 startTime endTime in
      mret (num_ge time lo && num_le time hi)
  end.

(** [a >= b] and [a <= b] on two [Date] objects compare their time
    values. *)
Definition Date_ge (a b : loc) : M bool :=
  x ← getTime a;
  y ← getTime b;
  mret (num_ge x y).

Definition Date_le (a b : loc) : M bool :=
  x ← getTime a;
  y ← getTime b;
  mret (num_le x y).

(** *** Array methods *)

Fixpoint filter_loop (callback : Registration → M bool)
    (elts : list Registration) : M (list Registration) :=
  match elts with
  | [] => mret []
  | x :: rest =>
      keep ← callback x;
      kept ← filter_loop callback rest;
      mret (if keep : bool then x :: kept else kept)
  end.

(** [a.filter(callback)]: the callback runs on the elements in order and
    the kept ones go to a new array. *)
Definition Array_filter (a : loc) (callback : Registration → M bool) : M loc :=
  elts ← getArray a;
  kept ← filter_loop callback elts;
  alloc (ArrayObj kept).

(** [a.reduce(f, init)]. *)
Definition Array_reduce {A B} (f : B → A → B) (elts : list A) (init : B) : B :=
  fold_left f elts init.

(** [[...new Set(xs)]]: the distinct values of [xs] in order of first
    occurrence. *)
Definition Set_add {A} `{EqDecision A} (s : list A) (x : A) : list A :=
  if decide (x ∈ s) then s else s ++ [x].

Definition Set_new {A} `{EqDecision A} (xs : list A) : list A :=
  fold_left Set_add xs [].

(** *** The render body, lines 106-132 and 306 *)

(** The callback of [registrations.filter], lines 106-125. *)
Definition filterCallback (fromDate toDate : option loc)
    (registration : Registration) : M bool :=
  if negb (bool_decide (is_Some fromDate)) && negb (bool_decide (is_Some toDate))
  then mret true
  else
    registrationDate ←
      match approved_at registration with
      | Val s =>
          if truthy (Val s)
          then (d ← alloc (DateObj (Date_parse host s)); mret (Some d))
          else mret None
      | _ => mret None
      end;
    match registrationDate with
    | None => mret false
    | Some registrationDate =>
        fromDateTime ←
          match fromDate with
          | Some d => (d' ← startOfDay d; mret (Some d'))
          | None => mret None
          end;
        toDateTime ←
          match toDate with
          | Some d => (d' ← endOfDay d; mret (Some d'))
          | None => mret None
          end;
        match fromDateTime, toDateTime with
        | Some f, Some t => isWithinInterval registrationDate f t
        | Some f, None => Date_ge registrationDate f
        | None, Some t => Date_le registrationDate t
        | None, None => mret false
        end
    end.

(** Line 106: [registrations.filter(..)]. *)
Definition filteredRegistrations (st : State) : M loc :=
  Array_filter (registrations st) (filterCallback (fromDate st) (toDate st)).

(** Lines 128-132, as functions of the rows of the filtered array and of
    the pending array. *)
Definition totalRegistrations (filtered : list Registration) : nat :=
  length filtered.

Definition totalFeesCollected (filtered : list Registration) : js_number :=
  Array_reduce (λ sum reg, (sum + or_zero (fee_paid reg))%float) filtered 0%float.

Definition totalCategories (filtered : list Registration) : nat :=
  length (Set_new (map category_id filtered)).

Definition totalPanchayaths (filtered : list Registration) : nat :=
  length (List.filter truthy (Set_new (map panchayath_id filtered))).

Definition pendingAmount (pending : list Registration) : js_number :=
  Array_reduce (λ sum reg, (sum + or_zero (fee_paid reg))%float) pending 0%float.

(** Line 306. *)
Definition performance (total : nat) : string :=
  if (50 <? total)%nat then "Excellent"
  else if (20 <? total)%nat then "Good"
  else "Fair".

(** Lines 106-132 and the grade of line 306; the body computes them on every
    render, before it looks at [loading]. *)
Definition ReportsTab (st : State) : M Render :=
  filtered ← filteredRegistrations st;
  rows ← getArray filtered;
  pending ← getArray (pendingRegistrations st);
  mret {| r_filteredRegistrations := filtered;
          r_totalRegistrations := totalRegistrations rows;
          r_totalFeesCollected := totalFeesCollected rows;
          r_totalCategories := totalCategories rows;
          r_totalPanchayaths := totalPanchayaths rows;
          r_pendingAmount := pendingAmount pending;
          r_performance := performance (totalRegistrations rows) |}.

(** *** Event handlers, lines 134-149 *)

(** The two [useState] setters of the date bounds. *)
Definition setFromDate (d : option loc) (st : State) : State :=
  {| fromDate := d; toDate := toDate st;
     registrations := registrations st;
     pendingRegistrations := pendingRegistrations st;
     loading := loading st |}.

Definition setToDate (d : option loc) (st : State) : State :=
  {| fromDate := fromDate st; toDate := d;
     registrations := registrations st;
     pendingRegistrations := pendingRegistrations st;
     loading := loading st |}.

(** Each handler maps the state it closes over to the state after its
    setters have run; the export handlers also close over the filtered array
    of the render they belong to. *)
Definition handleClear (st : State) : M State :=
  mret (setToDate None (setFromDate None st)).

Definition handleExportExcel (st : State) (filtered : loc) : M State :=
  _ ← console_log "Exporting to Excel..." filtered;
  _ ← toast_success "Export Excel functionality to be implemented";
  mret st.

Definition handleExportPDF (st : State) (filtered : loc) : M State :=
  _ ← console_log "Exporting to PDF..." filtered;
  _ ← toast_success "Export PDF functionality to be implemented";
  mret st.

End Component.

(** ** The loaders, lines 50-102 *)

(** What the awaited query delivers: the promise resolves to [{ data, error }]
    ([data] an array or [null], [error] an error object or [null]), or it
    rejects. *)
Inductive Response :=
  | Resolved (data : option (list Registration)) (error : option string)
  | Rejected (reason : string).

(** The component between two steps: its state, the world, and the lines
    written with [console.error] (a label and the error). *)
Record Screen := {
  scr_state : State;
  scr_world : World;
  scr_errors : list (string * string)
}.

(** The three other [useState] setters. *)
Definition setRegistrations (l : loc) (st : State) : State :=
  {| fromDate := fromDate st; toDate := toDate st;
     registrations := l;
     pendingRegistrations := pendingRegistrations st;
     loading := loading st |}.

Definition setPendingRegistrations (l : loc) (st : State) : State :=
  {| fromDate := fromDate st; toDate := toDate st;
     registrations := registrations st;
     pendingRegistrations := l;
     loading := loading st |}.

Definition setLoading (b : bool) (st : State) : State :=
  {| fromDate := fromDate st; toDate := toDate st;
     registrations := registrations st;
     pendingRegistrations := pendingRegistrations st;
     loading := b |}.

Definition on_state (f : State → State) (s : Screen) : Screen :=
  {| scr_state := f (scr_state s); scr_world := scr_world s;
     scr_errors := scr_errors s |}.

Definition console_error (label err : string) (s : Screen) : Screen :=
  {| scr_state := scr_state s; scr_world := scr_world s;
     scr_errors := scr_errors s ++ [(label, err)] |}.

Definition toast_error (msg : string) (s : Screen) : Screen :=
  {| scr_state := scr_state s;
     scr_world := {| heap := heap (scr_world s);
                     console := console (scr_world s);
                     toasts := toasts (scr_world s) ++ [ToastError msg] |};
     scr_errors := scr_errors s |}.

(** [setter(rows)] for an array that was not on the heap before (the decoded
    response, or the literal [[]]): the array enters the heap and the setter
    gets the reference. *)
Definition store (setter : loc → State → State) (rows : list Registration)
    (s : Screen) : Screen :=
  {| scr_state := setter (length (heap (scr_world s))) (scr_state s);
     scr_world := with_heap (scr_world s)
                    (heap (scr_world s) ++ [ArrayObj rows]);
     scr_errors := scr_errors s |}.

(** The first render: [useState([])] twice, [useState(true)], and the two
    date bounds [undefined]. *)
Definition mount (w : World) : Screen :=
  {| scr_state := {| fromDate := None; toDate := None;
                     registrations := length (heap w);
                     pendingRegistrations := S (length (heap w));
                     loading := true |};
     scr_world := with_heap w (heap w ++ [ArrayObj []; ArrayObj []]);
     scr_errors := [] |}.

(** [fetchRegistrations] up to its [await], lines 56-66. *)
Definition fetchRegistrations_start (s : Screen) : Screen :=
  on_state (setLoading true) s.

(** [fetchRegistrations] from the [await] on, lines 68-79: the two failure
    paths log and notify, success stores [data || []], and [finally] clears
    the loading flag. *)
Definition fetchRegistrations_resume (r : Response) (s : Screen) : Screen :=
  let s' :=
    match r with
    | Resolved data error =>
        match error with
        | Some e =>
            toast_error "Error fetching registrations"
              (console_error "Error fetching registrations:" e s)
        | None => store setRegistrations (default [] data) s
        end
    | Rejected e =>
        toast_error "Error fetching registrations"
          (console_error "Error fetching registrations:" e s)
    end in
  on_state (setLoading false) s'.

(** [fetchPendingRegistrations] from its [await] on, lines 94-101; before
    the [await] it only issues the query. *)
Definition fetchPendingRegistrations_resume (r : Response) (s : Screen) : Screen :=
  match r with
  | Resolved data error =>
      match error with
      | Some e => console_error "Error fetching pending registrations:" e s
      | None => store setPendingRegistrations (default [] data) s
      end
  | Rejected e => console_error "Error fetching pending registrations:" e s
  end.

(** Which of the two responses arrives first. *)
Inductive Arrival := ApprovedFirst | PendingFirst.

(** The effect of line 50-53: both loaders start, then each resumes when its
    response arrives. *)
Definition useEffect (order : Arrival) (approved pending : Response)
    (s : Screen) : Screen :=
  let s1 := fetchRegistrations_start s in
  match order with
  | ApprovedFirst =>
      fetchPendingRegistrations_resume pending
        (fetchRegistrations_resume approved s1)
  | PendingFirst =>
      fetchRegistrations_resume approved
        (fetchPendingRegistrations_resume pending s1)
  end.

(** ** What the component returns, lines 152-424 *)

(** One row of the table, lines 402-416; the fee cell holds the number that
    follows the currency sign. *)
Record TableRow := {
  row_key : string;
  cell_name : string;
  cell_mobile_number : string;
  cell_category : string;
  cell_fee_paid : js_number;
  cell_approved_by : string;
  cell_approved_date : string
}.

Inductive Body :=
  | EmptyMessage (msg : string)
  | Table (rows : list TableRow).

(** The spinner, or the report: the labels of the two date buttons, the
    cards, and the table or the message that stands in for it. *)
Inductive View :=
  | Spinner
  | Report (fromLabel toLabel : string) (cards : Render) (body : Body).

Section View.
Context (host : Host).

(** The day/month/year text of a valid time value in the time zone of the
    host, what [format(date, 'dd/MM/yyyy')] returns for it. *)
Context (formatDMY : Z → string).

(** date-fns [format(date, 'dd/MM/yyyy')]: works on a clone of its argument
    and throws [RangeError('Invalid time value')] for an Invalid Date, in
    both release lines. Further temporaries of the library are not kept. *)
Definition format (date : loc) : M string :=
  tv ← timeOf date;
  match tv with
  | None => throw (RangeError "Invalid time value")
  | Some t => mret (formatDMY t)
  end.

(** [s || 'N/A']. *)
Definition or_NA (s : string) : string :=
  if String.eqb s "" then "N/A" else s.

(** The callback of [filteredRegistrations.map], lines 401-417. The
    interface has [categories] present, so [categories?.name] is its name. *)
Definition tableRow (registration : Registration) : M TableRow :=
  approved_date ←
    match approved_at registration with
    | Val s =>
        if truthy (Val s)
        then (d ← alloc (DateObj (Date_parse host s)); format d)
        else mret "N/A"
    | _ => mret "N/A"
    end;
  mret {| row_key := id_ registration;
          cell_name := name registration;
          cell_mobile_number := mobile_number registration;
          cell_category := or_NA (category_name (categories registration));
          cell_fee_paid := or_zero (fee_paid registration);
          cell_approved_by := or_NA (approved_by registration);
          cell_approved_date := approved_date |}.

(** [a.map(callback)] for a callback with effects. *)
Fixpoint map_loop {B} (callback : Registration → M B)
    (elts : list Registration) : M (list B) :=
  match elts with
  | [] => mret []
  | x :: rest =>
      y ← callback x;
      ys ← map_loop callback rest;
      mret (y :: ys)
  end.

(** The label of a date button, lines 184 and 211. *)
Definition dateLabel (d : option loc) : M string :=
  match d with
  | Some l => format l
  | None => mret "Pick a date"
  end.

(** The whole function body: the metrics first, then the spinner while
    loading, else the report. *)
Definition ReportsTab_render (st : State) : M View :=
  cards ← ReportsTab host st;
  if loading st then mret Spinner
  else
    fromLabel ← dateLabel (fromDate st);
    toLabel ← dateLabel (toDate st);
    rows ← getArray (r_filteredRegistrations cards);
    body ←
      (if (length rows =? 0)%nat
       then mret (EmptyMessage
              (if negb (bool_decide (is_Some (fromDate st)))
                  && negb (bool_decide (is_Some (toDate st)))
               then "Please select date range to view approved registrations."
               else "No approved registrations found in the selected date range."))
       else (trs ← map_loop tableRow rows; mret (Table trs)));
    mret (Report fromLabel toLabel cards body).

End View.

(** ** A concrete host and concrete rows, for running the model *)

Definition msPerDay : Z := 86400000.

(** [setHours] in a zone that is always [tz] milliseconds ahead of UTC: local
    midnight of the local day that contains [t], plus the time of day. *)
Definition fixedOffset_setHours (tz t h m s ms : Z) : Z :=
  t - (t + tz) `mod` msPerDay + (((h * 60 + m) * 60 + s) * 1000 + ms).

Definition digit (c : ascii) : option Z :=
  let n := Z.of_N (N_of_ascii c) - 48 in
  if (0 <=? n) && (n <=? 9) then Some n else None.

Fixpoint number (cs : list ascii) (acc : Z) : option Z :=
  match cs with
  | [] => Some acc
  | c :: cs' => d ← digit c; number cs' (10 * acc + d)
  end.

Definition isLeap (y : Z) : bool :=
  ((y `mod` 4 =? 0) && negb (y `mod` 100 =? 0)) || (y `mod` 400 =? 0).

Definition daysInMonth (y m : Z) : Z :=
  if m =? 2 then (if isLeap y then 29 else 28)
  else if (m =? 4) || (m =? 6) || (m =? 9) || (m =? 11) then 30
  else 31.

(** Days from 1970-01-01 to the civil date [y]-[m]-[d]. *)
Definition daysFromCivil (y m d : Z) : Z :=
  let y' := if m <=? 2 then y - 1 else y in
  let era := y' `div` 400 in
  let yoe := y' - era * 400 in
  let mp := if 2 <? m then m - 3 else m + 9 in
  let doy := (153 * mp + 2) `div` 5 + d - 1 in
  let doe := yoe * 365 + yoe `div` 4 - yoe `div` 100 + doy in
  era * 146097 + doe - 719468.

(** The parser of the two example hosts. It reads the date-only ISO form
    [YYYY-MM-DD] of a calendar day, as [Date] does, as midnight UTC, and
    takes every other string for an Invalid Date; the strings of the examples
    are of that form. The theorems are stated for every [Host], whatever its
    [Date_parse]. *)
Definition isoDate (s : string) : option Z :=
  match String.list_ascii_of_string s with
  | [y1; y2; y3; y4; "-"%char; m1; m2; "-"%char; d1; d2] =>
      y ← number [y1; y2; y3; y4] 0;
      m ← number [m1; m2] 0;
      d ← number [d1; d2] 0;
      if (1 <=? m) && (m <=? 12) && (1 <=? d) && (d <=? daysInMonth y m)
      then Some (daysFromCivil y m d * msPerDay)
      else None
  | _ => None
  end.

(** Local time five and a half hours ahead of UTC. *)
Definition tz0530 : Z := 19800000.

Definition host3 : Host :=
  {| Date_parse := isoDate;
     Date_setHours := fixedOffset_setHours tz0530;
     date_fns := DateFns3 |}.

Definition host2 : Host :=
  {| Date_parse := isoDate;
     Date_setHours := fixedOffset_setHours tz0530;
     date_fns := DateFns2 |}.

(** A row with the given fee, approval timestamp, category and panchayath. *)
Definition row (fee : nullable js_number) (approved : nullable string)
    (cat pan : nullable string) : Registration :=
  {| id_ := "r"; customer_id := "c"; name := "n"; mobile_number := "0";
     address := "a"; ward := "1"; agent_pro := "p"; status := "approved";
     fee_paid := fee; created_at := "2024-01-01"; approved_at := approved;
     approved_by := "admin"; expires_at := "2025-01-01";
     category_id := cat; panchayath_id := pan;
     categories := {| category_name := "k" |}; panchayaths := None |}.

(** The calendar hands over local midnight of the picked day. *)
Definition pick (day : string) : option Z :=
  (λ t, t - tz0530) <$> isoDate day.

(** Two approved rows, two pending rows and two picked days. *)
Definition rowsA : list Registration :=
  [ row (Val 100%float) (Val "2024-01-05") (Val "a") Null;
    row (Val 200%float) (Val "2024-01-15") (Val "") (Val "p") ].

Definition pendingD : list Registration :=
  [ row (Val 50%float) Null (Val "a") Null; row (Val 75%float) Null (Val "b") Null ].

Definition worldA : World :=
  {| heap := [ ArrayObj rowsA; ArrayObj pendingD;
               DateObj (pick "2024-01-01");
               DateObj (pick "2024-01-10") ];
     console := []; toasts := [] |}.

(** The same with a third approved row that has no approval timestamp. *)
Definition rowsN : list Registration :=
  row (Val 50%float) Null (Val "a") Null :: rowsA.

Definition worldN : World :=
  {| heap := [ ArrayObj rowsN; ArrayObj pendingD;
               DateObj (pick "2024-01-01");
               DateObj (pick "2024-01-10") ];
     console := []; toasts := [] |}.

(** From 1 January to 10 January. *)
Definition stateA : State :=
  {| fromDate := Some 2%nat; toDate := Some 3%nat; registrations := 0%nat;
     pendingRegistrations := 1%nat; loading := false |}.

(** From 10 January to 1 January: [from] is later than [to]. *)
Definition stateReversed : State :=
  {| fromDate := Some 3%nat; toDate := Some 2%nat; registrations := 0%nat;
     pendingRegistrations := 1%nat; loading := false |}.

(** The civil date of a day number (days since 1970-01-01), as day, month,
    year. *)
Definition civilFromDays (z : Z) : Z * Z * Z :=
  let z' := z + 719468 in
  let era := z' `div` 146097 in
  let doe := z' - era * 146097 in
  let yoe := (doe - doe `div` 1460 + doe `div` 36524 - doe `div` 146096) `div` 365 in
  let doy := doe - (365 * yoe + yoe `div` 4 - yoe `div` 100) in
  let mp := (5 * doy + 2) `div` 153 in
  let d := doy - (153 * mp + 2) `div` 5 + 1 in
  let m := if mp <? 10 then mp + 3 else mp - 9 in
  let y := yoe + era * 400 + (if m <=? 2 then 1 else 0) in
  (d, m, y).

Definition digitChar (n : Z) : ascii :=
  ascii_of_N (Z.to_N (48 + n `mod` 10)).

Definition pad2 (n : Z) : string :=
  String (digitChar (n `div` 10)) (String (digitChar n) EmptyString).

Definition pad4 (n : Z) : string :=
  String (digitChar (n `div` 1000)) (String (digitChar (n `div` 100))
    (String (digitChar (n `div` 10)) (String (digitChar n) EmptyString))).

(** [dd/MM/yyyy] in the zone five and a half hours ahead of UTC. *)
Definition formatDMY0530 (t : Z) : string :=
  let '(d, m, y) := civilFromDays ((t + tz0530) `div` msPerDay) in
  String.append (pad2 d) (String.append "/" (String.append (pad2 m)
    (String.append "/" (pad4 y)))).

(** An approved row whose timestamp [Date] cannot parse. *)
Definition rowsBad : list Registration :=
  rowsA ++ [row (Val 10%float) (Val "yesterday") (Val "a") Null].

Definition worldBad : World :=
  {| heap := [ ArrayObj rowsBad; ArrayObj pendingD;
               DateObj (pick "2024-01-01");
               DateObj (pick "2024-01-10") ];
     console := []; toasts := [] |}.

(** No bounds, and loading done. *)
Definition stateOpen : State :=
  {| fromDate := None; toDate := None; registrations := 0%nat;
     pendingRegistrations := 1%nat; loading := false |}.





(** ** Vocabulary of the statements *)

(** Time value of the Date that [startOfDay] (resp. [endOfDay]) returns for a
    Date whose time value is [t]. *)
Definition dayStart (h : Host) (t : Z) : Z := Date_setHours h t 0 0 0 0.

Definition dayEnd (h : Host) (t : Z) : Z := Date_setHours h t 23 59 59 999.

(** The computation returns (it does not throw) and its result and final
    world satisfy [Q]. *)
Definition returns {A} (m : M A) (w : World) (Q : A → World → Prop) : Prop :=
  match m w with
  | Ok (a, w') => Q a w'
  | Throw _ => False
  end.

(** The computation returns with [Q] whenever [accepted] holds, and [Q]
    holds of every result it returns, also when [accepted] does not hold. *)
Definition returns_when (accepted : Prop) {A} (m : M A) (w : World)
    (Q : A → World → Prop) : Prop :=
  (accepted → returns m w Q) ∧ (∀ a w', m w = Ok (a, w') → Q a w').

(** Every object of [w] is still there, unchanged, in [w']: the heap has only
    grown at its end, and nothing was logged or notified. *)
Definition grows (w w' : World) : Prop :=
  heap w `prefix_of` heap w' ∧ console w' = console w ∧ toasts w' = toasts w.

(** The world after [isWithinInterval] has cloned its three arguments. *)
Definition clones (w : World) (x y z : option Z) : World :=
  with_heap w (((heap w ++ [DateObj x]) ++ [DateObj y]) ++ [DateObj z]).

(** What a date bound holds: [None] when it is unset, [Some tv] when it
    refers to a Date of time value [tv] ([tv = None] for an Invalid Date). *)
Definition bound_at (w : World) (d : option loc) (v : option (option Z)) : Prop :=
  match d, v with
  | None, None => True
  | Some l, Some tv => heap w !! l = Some (DateObj tv)
  | _, _ => False
  end.

(** [isWithinInterval] accepts the interval that the two bounds span: the
    host runs date-fns 3, or the bounds are not both set, or both are valid
    and start-of-day(from) is not after end-of-day(to). *)
Definition interval_ok (h : Host) (F T : option (option Z)) : Prop :=
  date_fns h = DateFns3 ∨
  ∀ x y, F = Some x → T = Some y →
         num_le (dayStart h <$> x) (dayEnd h <$> y) = true.

(** The value the callback computes for a row, as a function of what the two
    bounds hold. *)
Definition keeps (h : Host) (F T : option (option Z)) (reg : Registration) : bool :=
  match F, T with
  | None, None => true
  | _, _ =>
      match approved_at reg with
      | Val s =>
          if truthy (Val s) then
            let r := Date_parse h s in
            match F, T with
            | Some x, Some y =>
                let '(lo, hi) := sort2 (dayStart h <$> x) (dayEnd h <$> y) in
                num_ge r lo && num_le r hi
            | Some x, None => num_ge r (dayStart h <$> x)
            | None, Some y => num_le r (dayEnd h <$> y)
            | None, None => false
            end
          else false
      | _ => false
      end
  end.

(** The number of distinct values of a list. *)
Definition distinct {A} `{Countable A} (xs : list A) : nat :=
  size (list_to_set (C := gset A) xs).



(** The rows of the array that [l] refers to. *)
Definition rowsAt (w : World) (l : loc) : option (list Registration) :=
  match heap w !! l with
  | Some (ArrayObj rows) => Some rows
  | _ => None
  end.

(** The error of a response that failed, by either path. *)
Definition failure (r : Response) : option string :=
  match r with
  | Resolved _ (Some e) => Some e
  | Resolved _ None => None
  | Rejected e => Some e
  end.

(** The rows a response that did not fail hands to the setter,
    [data || []]. *)
Definition payload (r : Response) : list Registration :=
  match r with
  | Resolved (Some rows) _ => rows
  | _ => []
  end.

(** The two references of the state are below the end of the heap. *)
Definition refs_ok (s : Screen) : Prop :=
  (registrations (scr_state s) < length (heap (scr_world s)))%nat ∧
  (pendingRegistrations (scr_state s) < length (heap (scr_world s)))%nat.

(** The text of the date cell of a row, [None] when [format] throws. *)
Definition dateCell (h : Host) (fmt : Z → string) (r : Registration) : option string :=
  match approved_at r with
  | Val s => if truthy (Val s) then fmt <$> Date_parse h s else Some "N/A"
  | _ => Some "N/A"
  end.

(** The table row of a row whose date cell is [date]. *)
Definition rowWith (r : Registration) (date : string) : TableRow :=
  {| row_key := id_ r;
     cell_name := name r;
     cell_mobile_number := mobile_number r;
     cell_category := or_NA (category_name (categories r));
     cell_fee_paid := or_zero (fee_paid r);
     cell_approved_by := or_NA (approved_by r);
     cell_approved_date := date |}.

Definition rowOf (h : Host) (fmt : Z → string) (r : Registration) : option TableRow :=
  rowWith r <$> dateCell h fmt r.

(** The label of a date button for what the bound holds. *)
Definition labelOf (fmt : Z → string) (v : option (option Z)) : option string :=
  match v with
  | None => Some "Pick a date"
  | Some tv => fmt <$> tv
  end.

(** The same host with date-fns 3 in place of its release. *)
Definition upgrade (h : Host) : Host :=
  {| Date_parse := Date_parse h; Date_setHours := Date_setHours h;
     date_fns := DateFns3 |}.

(** [F', T'] is at least as wide as [F, T]: a bound of the wider pair is
    unset, or both are set and the wider one is not inside the other. *)
Definition wider (h : Host) (F' T' F T : option Z) : Prop :=
  match F', F with
  | None, _ => True
  | Some f', Some f => dayStart h f' ≤ dayStart h f
  | Some _, None => False
  end ∧
  match T', T with
  | None, _ => True
  | Some e', Some e => dayEnd h e ≤ dayEnd h e'
  | Some _, None => False
  end.

(** The fee column of a table added from the top row down, starting
    from 0. *)
Definition feeColumn (trs : list TableRow) : js_number :=
  fold_left (λ acc tr, (acc + cell_fee_paid tr)%float) trs 0%float.

(** The table agrees with the cards: as many table rows as the first card
    says, a fee column that, added from the top row down, gives the fee card,
    and the message only when the first card says 0. *)
Definition consistent (v : View) : Prop :=
  match v with
  | Spinner => True
  | Report _ _ cards (EmptyMessage _) => r_totalRegistrations cards = 0%nat
  | Report _ _ cards (Table trs) =>
      trs ≠ [] ∧ length trs = r_totalRegistrations cards ∧
      feeColumn trs = r_totalFeesCollected cards
  end.

(** The row has a non-empty [approved_at] that [Date] cannot parse. *)
Definition unparseable (h : Host) (r : Registration) : Prop :=
  ∃ s, approved_at r = Val s ∧ s ≠ "" ∧ Date_parse h s = None.

(** The label of a date button for a bound that is unset or valid. *)
Definition buttonLabel (fmt : Z → string) (v : option Z) : string :=
  match v with
  | Some t => fmt t
  | None => "Pick a date"
  end.

(** What can be seen of a screen: the flag, the bounds, the rows the two
    references lead to, the notifications and the console. *)
Record Observed := {
  o_loading : bool;
  o_from : option loc;
  o_to : option loc;
  o_approved : option (list Registration);
  o_pending : option (list Registration);
  o_toasts : list Toast;
  o_console : list (string * loc)
}.

Definition observe (s : Screen) : Observed :=
  {| o_loading := loading (scr_state s);
     o_from := fromDate (scr_state s);
     o_to := toDate (scr_state s);
     o_approved := rowsAt (scr_world s) (registrations (scr_state s));
     o_pending := rowsAt (scr_world s) (pendingRegistrations (scr_state s));
     o_toasts := toasts (scr_world s);
     o_console := console (scr_world s) |}.

(** The rows a loader leaves in place of [before]: the payload of the
    response, or what was there when the response failed. *)
Definition loaded (r : Response) (before : option (list Registration)) :
    option (list Registration) :=
  match failure r with
  | Some _ => before
  | None => Some (payload r)
  end.

(** The notifications of the approved loader for a response. *)
Definition notified (r : Response) : list Toast :=
  match failure r with
  | Some _ => [ToastError "Error fetching registrations"]
  | None => []
  end.

(** The four figures of a list of rows. *)
Definition figures (rows : list Registration) : nat * js_number * nat * nat :=
  (totalRegistrations rows, totalFeesCollected rows,
   totalCategories rows, totalPanchayaths rows).


(** ** Running the primitives *)

Lemma returns_ret {A} (a : A) w (Q : A → World → Prop) :
  Q a w → returns (mret a) w Q.
Proof. done. Qed.

Lemma returns_bind {A B} (m : M A) (f : A → M B) w Q :
  returns m w (λ a w', returns (f a) w' Q) → returns (m ≫= f) w Q.
Proof.
  unfold returns, mbind, M_bind. destruct (m w) as [[a w']|e]; auto.
Qed.

Lemma returns_mono {A} (m : M A) w (P Q : A → World → Prop) :
  returns m w P → (∀ a w', P a w' → Q a w') → returns m w Q.
Proof.
  unfold returns. destruct (m w) as [[a w']|e]; auto.
Qed.

Lemma returns_eq {A} (m : M A) w Q :
  returns m w Q ↔ ∃ a w', m w = Ok (a, w') ∧ Q a w'.
Proof.
  unfold returns. split.
  - destruct (m w) as [[a w']|e]; [eauto | contradiction].
  - intros (a & w' & -> & HQ). exact HQ.
Qed.

Lemma bind_ok {A B} (m : M A) (f : A → M B) w a w' :
  m w = Ok (a, w') → (m ≫= f) w = f a w'.
Proof. unfold mbind, M_bind. by intros ->. Qed.

Global Instance grows_preorder : PreOrder grows.
Proof.
  split.
  - intros w. by repeat split.
  - intros w1 w2 w3 (H1 & H2 & H3) (H4 & H5 & H6). repeat split.
    + by etrans.
    + congruence.
    + congruence.
Qed.

Lemma grows_lookup w w' l o :
  grows w w' → heap w !! l = Some o → heap w' !! l = Some o.
Proof. intros (Hp & _ & _) Hl. by eapply prefix_lookup_Some. Qed.

Lemma grows_snoc w o : grows w (with_heap w (heap w ++ [o])).
Proof. repeat split. simpl. by apply prefix_app_r. Qed.

Lemma grows_bound_at w w' d v : grows w w' → bound_at w d v → bound_at w' d v.
Proof.
  intros Hg. destruct d as [l|], v as [tv|]; simpl; try done.
  by apply grows_lookup.
Qed.

Lemma lookup_snoc_here (h : list Object) o : (h ++ [o]) !! length h = Some o.
Proof. by apply list_lookup_middle. Qed.

Lemma lookup_snoc_old (h : list Object) o l x :
  h !! l = Some x → (h ++ [o]) !! l = Some x.
Proof. apply lookup_app_l_Some. Qed.

Lemma insert_snoc_here (h : list Object) o o' :
  <[length h := o']> (h ++ [o]) = h ++ [o'].
Proof.
  replace (length h) with (length h + 0)%nat by lia.
  by rewrite insert_app_r.
Qed.

Ltac heap_lookup :=
  simpl;
  repeat first
    [ eassumption
    | apply lookup_snoc_here
    | apply lookup_snoc_old ].

Lemma getTime_run w d tv :
  heap w !! d = Some (DateObj tv) → getTime d w = Ok (tv, w).
Proof. unfold getTime. by intros ->. Qed.

Lemma getArray_run w a elts :
  heap w !! a = Some (ArrayObj elts) → getArray a w = Ok (elts, w).
Proof. unfold getArray. by intros ->. Qed.

Section Run.
Context (host : Host).

Lemma setHours_fresh w tv h m s ms :
  setHours host (length (heap w)) h m s ms (with_heap w (heap w ++ [DateObj tv]))
  = Ok (tt, with_heap w (heap w ++
      [DateObj ((λ t, Date_setHours host t h m s ms) <$> tv)])).
Proof.
  unfold setHours.
  rewrite (bind_ok _ _ _ tv (with_heap w (heap w ++ [DateObj tv])))
    by (apply getTime_run; heap_lookup).
  unfold setTime. simpl. rewrite lookup_snoc_here.
  by rewrite insert_snoc_here.
Qed.

Lemma startOfDay_run w d tv :
  heap w !! d = Some (DateObj tv) →
  startOfDay host d w
  = Ok (length (heap w), with_heap w (heap w ++ [DateObj (dayStart host <$> tv)])).
Proof.
  intros Hd. unfold startOfDay, dateFns_toDate.
  rewrite (bind_ok _ _ _ (length (heap w)) (with_heap w (heap w ++ [DateObj tv])))
    by (by rewrite (bind_ok _ _ _ tv w) by by apply getTime_run).
  by rewrite (bind_ok _ _ _ _ _ (setHours_fresh w tv 0 0 0 0)).
Qed.

Lemma endOfDay_run w d tv :
  heap w !! d = Some (DateObj tv) →
  endOfDay host d w
  = Ok (length (heap w), with_heap w (heap w ++ [DateObj (dayEnd host <$> tv)])).
Proof.
  intros Hd. unfold endOfDay, dateFns_toDate.
  rewrite (bind_ok _ _ _ (length (heap w)) (with_heap w (heap w ++ [DateObj tv])))
    by (by rewrite (bind_ok _ _ _ tv w) by by apply getTime_run).
  by rewrite (bind_ok _ _ _ _ _ (setHours_fresh w tv 23 59 59 999)).
Qed.

Lemma Date_ge_run w a b x y :
  heap w !! a = Some (DateObj x) → heap w !! b = Some (DateObj y) →
  Date_ge a b w = Ok (num_ge x y, w).
Proof.
  intros Ha Hb. unfold Date_ge.
  rewrite (bind_ok _ _ _ x w) by by apply getTime_run.
  by rewrite (bind_ok _ _ _ y w) by by apply getTime_run.
Qed.

Lemma Date_le_run w a b x y :
  heap w !! a = Some (DateObj x) → heap w !! b = Some (DateObj y) →
  Date_le a b w = Ok (num_le x y, w).
Proof.
  intros Ha Hb. unfold Date_le.
  rewrite (bind_ok _ _ _ x w) by by apply getTime_run.
  by rewrite (bind_ok _ _ _ y w) by by apply getTime_run.
Qed.

Lemma timeOf_run w d tv :
  heap w !! d = Some (DateObj tv) →
  timeOf d w = Ok (tv, with_heap w (heap w ++ [DateObj tv])).
Proof.
  intros Hd. unfold timeOf, dateFns_toDate.
  rewrite (bind_ok _ _ _ (length (heap w)) (with_heap w (heap w ++ [DateObj tv])))
    by (by rewrite (bind_ok _ _ _ tv w) by by apply getTime_run).
  apply getTime_run. heap_lookup.
Qed.

Lemma isWithinInterval_run w d s e x y z :
  heap w !! d = Some (DateObj x) → heap w !! s = Some (DateObj y) →
  heap w !! e = Some (DateObj z) →
  isWithinInterval host d s e w =
    match date_fns host with
    | DateFns2 =>
        if negb (num_le y z) then Throw (RangeError "Invalid interval")
        else Ok (num_ge x y && num_le x z, clones w x y z)
    | DateFns3 =>
        Ok (num_ge x (sort2 y z).1 && num_le x (sort2 y z).2, clones w x y z)
    end.
Proof.
  intros Hd Hs He. unfold isWithinInterval.
  rewrite (bind_ok _ _ _ _ _ (timeOf_run w d x Hd)).
  erewrite bind_ok by (apply timeOf_run; heap_lookup).
  erewrite bind_ok by (apply timeOf_run; heap_lookup).
  destruct (date_fns host).
  - by destruct (negb (num_le y z)).
  - by destruct (sort2 y z).
Qed.

End Run.

(** ** The filter callback *)

Lemma nonempty_eqb s : s ≠ "" → String.eqb s "" = false.
Proof. apply String.eqb_neq. Qed.

Ltac solve_grows :=
  first
    [ reflexivity
    | repeat split; simpl; rewrite <- ?app_assoc; by apply prefix_app_r ].

Ltac run_callback :=
  unfold returns, filterCallback, mbind, M_bind, mret, M_ret, alloc; simpl;
  repeat first
    [ erewrite startOfDay_run by heap_lookup; simpl
    | erewrite endOfDay_run by heap_lookup; simpl
    | erewrite Date_ge_run by heap_lookup; simpl
    | erewrite Date_le_run by heap_lookup; simpl
    | erewrite isWithinInterval_run by heap_lookup; simpl ].

Section Callback.
Context (host : Host).

(** With both bounds unset the callback keeps the row and touches nothing. *)
Lemma filterCallback_unset w reg :
  filterCallback host None None reg w = Ok (true, w).
Proof. reflexivity. Qed.

(** A row whose [approved_at] is [undefined], [null] or the empty string is
    dropped as soon as one bound is set, before the callback touches any
    Date. *)
Lemma filterCallback_no_timestamp w from to reg :
  truthy (approved_at reg) = false → is_Some from ∨ is_Some to →
  filterCallback host from to reg w = Ok (false, w).
Proof.
  intros Ha Hset.
  destruct from as [f|], to as [t|];
    try (by destruct Hset as [[? [=]]|[? [=]]]);
    (destruct (approved_at reg) as [| |s] eqn:Hreg; simpl in Ha;
     [| |apply negb_false_iff in Ha]);
    run_callback; rewrite ?Hreg; simpl; rewrite ?Ha; done.
Qed.

(** When [isWithinInterval] accepts the interval, the callback returns the
    value [keeps] gives, and all it does to the world is allocate Dates. *)
Lemma filterCallback_run w from to F T reg :
  bound_at w from F → bound_at w to T → interval_ok host F T →
  returns (filterCallback host from to reg) w
    (λ b w', b = keeps host F T reg ∧ grows w w').
Proof.
  intros Hf Ht Hok.
  destruct from as [f|], F as [x|]; try contradiction;
    destruct to as [t|], T as [y|]; try contradiction;
    simpl in Hf, Ht; unfold keeps;
    (destruct (approved_at reg) as [| |s] eqn:Ha;
     [| |destruct (String.eqb s "") eqn:Hs]);
    run_callback; rewrite ?Ha; simpl; rewrite ?Hs; simpl;
    run_callback; try (split; [reflexivity | solve_grows]).
  destruct Hok as [Hrel|Hord].
  - rewrite Hrel. destruct (sort2 _ _). split; [reflexivity | solve_grows].
  - specialize (Hord x y eq_refl eq_refl).
    destruct (date_fns host).
    + rewrite Hord. simpl.
      assert (Hsort : sort2 (dayStart host <$> x) (dayEnd host <$> y)
                      = (dayStart host <$> x, dayEnd host <$> y)).
      { destruct x as [a|], y as [b|]; simpl in *; try done.
        apply Z.leb_le in Hord.
        by replace (0 <? dayStart host a - dayEnd host b) with false
          by (symmetry; apply Z.ltb_ge; lia). }
      rewrite Hsort. split; [reflexivity | solve_grows].
    + destruct (sort2 _ _). split; [reflexivity | solve_grows].
Qed.

End Callback.

(** ** The filter *)

Lemma StronglySorted_sublist {A} (R : relation A) (l k : list A) :
  l `sublist_of` k → StronglySorted R k → StronglySorted R l.
Proof.
  induction 1 as [|x l k Hsub IH|x l k Hsub IH]; intros Hk.
  - constructor.
  - apply StronglySorted_inv in Hk as [Hk Hx]. constructor; [by apply IH|].
    apply Forall_forall. intros y Hy.
    rewrite Forall_forall in Hx. apply Hx.
    by apply (sublist_subseteq _ _ Hsub).
  - apply StronglySorted_inv in Hk as [Hk _]. by apply IH.
Qed.

Lemma filter_sublist {A} (p : A → bool) (l : list A) :
  List.filter p l `sublist_of` l.
Proof.
  induction l as [|x l IH]; simpl; [constructor|].
  destruct (p x); by constructor.
Qed.

Lemma filter_all {A} (p : A → bool) (l : list A) :
  (∀ x, p x = true) → List.filter p l = l.
Proof.
  intros Hp. induction l as [|x l IH]; simpl; [done|].
  by rewrite Hp, IH.
Qed.

Lemma elem_of_filter_bool {A} (p : A → bool) (l : list A) x :
  x ∈ List.filter p l ↔ x ∈ l ∧ p x = true.
Proof. rewrite !list_elem_of_In. apply filter_In. Qed.

Section Filter.
Context (callback : Registration → M bool) (p : Registration → bool).

(** A callback that, on every world reachable from [w], returns [p x] and
    only lets the world grow makes the loop return the rows that satisfy
    [p], in their order. *)
Lemma filter_loop_run w elts :
  (∀ x w1, grows w w1 →
     returns (callback x) w1 (λ b w2, b = p x ∧ grows w1 w2)) →
  returns (filter_loop callback elts) w
    (λ kept w', kept = List.filter p elts ∧ grows w w').
Proof.
  revert w. induction elts as [|x rest IH]; intros w Hcb.
  - apply returns_ret. by split.
  - simpl. apply returns_bind.
    eapply returns_mono; [by apply Hcb|].
    intros keep w1 [-> Hw1]. simpl. apply returns_bind.
    eapply returns_mono.
    { apply IH. intros y w2 Hw2. apply Hcb. by transitivity w1. }
    intros kept w2 [-> Hw2]. apply returns_ret. simpl.
    split; [done | by transitivity w1].
Qed.

End Filter.

Section Render.
Context (host : Host).

(** The filter returns a new array that holds the rows [keeps] selects, and
    leaves every earlier object as it was. *)
Lemma filteredRegistrations_run w st rows F T :
  heap w !! registrations st = Some (ArrayObj rows) →
  bound_at w (fromDate st) F → bound_at w (toDate st) T →
  interval_ok host F T →
  returns (filteredRegistrations host st) w (λ l w',
    heap w' !! l = Some (ArrayObj (List.filter (keeps host F T) rows)) ∧
    grows w w').
Proof.
  intros Hrows Hf Ht Hok. unfold filteredRegistrations, Array_filter.
  apply returns_bind. unfold returns at 1.
  rewrite (getArray_run _ _ _ Hrows).
  apply returns_bind. eapply returns_mono.
  { apply (filter_loop_run _ (keeps host F T)). intros x w1 Hw1.
    apply filterCallback_run; [| |done]; by eapply grows_bound_at. }
  intros kept w1 [-> Hw1]. unfold returns, alloc.
  split; [apply lookup_snoc_here|].
  transitivity w1; [done|]. apply grows_snoc.
Qed.

(** One render: the cards are the metric functions of the filtered rows and
    of the pending rows. *)
Lemma ReportsTab_run w st rows pending F T :
  heap w !! registrations st = Some (ArrayObj rows) →
  heap w !! pendingRegistrations st = Some (ArrayObj pending) →
  bound_at w (fromDate st) F → bound_at w (toDate st) T →
  interval_ok host F T →
  returns (ReportsTab host st) w (λ v w',
    let kept := List.filter (keeps host F T) rows in
    heap w' !! r_filteredRegistrations v = Some (ArrayObj kept) ∧
    grows w w' ∧
    v = {| r_filteredRegistrations := r_filteredRegistrations v;
           r_totalRegistrations := totalRegistrations kept;
           r_totalFeesCollected := totalFeesCollected kept;
           r_totalCategories := totalCategories kept;
           r_totalPanchayaths := totalPanchayaths kept;
           r_pendingAmount := pendingAmount pending;
           r_performance := performance (totalRegistrations kept) |}).
Proof.
  intros Hrows Hpend Hf Ht Hok. unfold ReportsTab.
  apply returns_bind. eapply returns_mono.
  { by eapply filteredRegistrations_run. }
  intros l w1 [Hl Hw1]. simpl.
  apply returns_bind. unfold returns at 1.
  rewrite (getArray_run _ _ _ Hl).
  apply returns_bind. unfold returns at 1.
  rewrite (getArray_run _ _ pending) by by eapply grows_lookup.
  unfold returns. simpl. done.
Qed.

Lemma interval_ok_3 F T : date_fns host = DateFns3 → interval_ok host F T.
Proof. by left. Qed.

End Render.

(** ** Inverting and running binds *)

Lemma bind_Ok_inv {A B} (m : M A) (f : A → M B) w r :
  (m ≫= f) w = Ok r → ∃ a w1, m w = Ok (a, w1) ∧ f a w1 = Ok r.
Proof.
  unfold mbind, M_bind. destruct (m w) as [[a w1]|e]; [eauto | discriminate].
Qed.

Lemma bind_throw {A B} (m : M A) (f : A → M B) w e :
  m w = Throw e → (m ≫= f) w = Throw e.
Proof. unfold mbind, M_bind. by intros ->. Qed.

(** ** When [isWithinInterval] rejects the interval *)

Lemma filter_nil_iff {A} (p : A → bool) (l : list A) :
  List.filter p l = [] ↔ Forall (λ x, p x = false) l.
Proof.
  induction l as [|x l IH]; simpl; [by split|].
  rewrite Forall_cons. destruct (p x); [|by rewrite IH; intuition].
  split; [done | by intros [? _]].
Qed.

Section InvalidInterval.
Context (host : Host).
Hypothesis release2 : date_fns host = DateFns2.

Lemma filterCallback_invalid_interval w f t x y reg :
  heap w !! f = Some (DateObj x) → heap w !! t = Some (DateObj y) →
  num_le (dayStart host <$> x) (dayEnd host <$> y) = false →
  truthy (approved_at reg) = true →
  filterCallback host (Some f) (Some t) reg w
  = Throw (RangeError "Invalid interval").
Proof.
  intros Hf Ht Hle Ha.
  destruct (approved_at reg) as [| |s] eqn:Hreg; simpl in Ha; try done.
  apply negb_true_iff in Ha.
  run_callback. rewrite Hreg. simpl. rewrite Ha. run_callback.
  by rewrite release2, Hle.
Qed.

Lemma filter_loop_invalid_interval w f t x y elts :
  heap w !! f = Some (DateObj x) → heap w !! t = Some (DateObj y) →
  num_le (dayStart host <$> x) (dayEnd host <$> y) = false →
  Exists (λ r, truthy (approved_at r) = true) elts →
  filter_loop (filterCallback host (Some f) (Some t)) elts w
  = Throw (RangeError "Invalid interval").
Proof.
  intros Hf Ht Hle. induction elts as [|r rest IH]; intros Hex.
  - by apply Exists_nil in Hex.
  - simpl. destruct (truthy (approved_at r)) eqn:Hr.
    + apply bind_throw. by eapply filterCallback_invalid_interval.
    + rewrite (bind_ok _ _ _ false w)
        by (apply filterCallback_no_timestamp; [done | left; eauto]).
      apply bind_throw, IH.
      apply Exists_cons in Hex as [Hex|Hex]; [congruence | done].
Qed.

Lemma filter_loop_no_timestamps w from to elts :
  is_Some from ∨ is_Some to →
  Forall (λ r, truthy (approved_at r) = false) elts →
  filter_loop (filterCallback host from to) elts w = Ok ([], w).
Proof.
  intros Hset. induction elts as [|r rest IH]; intros Hall; [done|].
  apply Forall_cons in Hall as [Hr Hall]. simpl.
  rewrite (bind_ok _ _ _ false w) by by apply filterCallback_no_timestamp.
  by rewrite (bind_ok _ _ _ [] w) by by apply IH.
Qed.

End InvalidInterval.

Section AnyRelease.
Context (host : Host).

(** Either [isWithinInterval] accepts the interval, or the host runs
    date-fns 2, both bounds are set and the ends are not in order. *)
Lemma interval_ok_cases F T :
  interval_ok host F T ∨
  (date_fns host = DateFns2 ∧ ∃ x y, F = Some x ∧ T = Some y ∧
     num_le (dayStart host <$> x) (dayEnd host <$> y) = false).
Proof.
  destruct (date_fns host) eqn:Hrel; [|by left; left].
  destruct F as [x|]; [|left; right; by intros ? ? [=]].
  destruct T as [y|]; [|left; right; by intros ? ? _ [=]].
  destruct (num_le (dayStart host <$> x) (dayEnd host <$> y)) eqn:Hle.
  - left. right. by intros ? ? [= <-] [= <-].
  - right. split; [done|]. by exists x, y.
Qed.

Lemma keeps_no_timestamp F T reg :
  truthy (approved_at reg) = false → is_Some F ∨ is_Some T →
  keeps host F T reg = false.
Proof.
  intros Ha Hset. unfold keeps.
  destruct F, T; try (by destruct Hset as [[? [=]]|[? [=]]]);
    destruct (approved_at reg) as [| |s]; try done; by rewrite Ha.
Qed.

(** Whatever the release, a filter that returns has allocated the rows
    [keeps] selects: where date-fns 2 rejects the interval, the filter gets
    past it only if no row has a timestamp, and then it keeps none. *)
Lemma filteredRegistrations_Ok w st rows F T l w' :
  heap w !! registrations st = Some (ArrayObj rows) →
  bound_at w (fromDate st) F → bound_at w (toDate st) T →
  filteredRegistrations host st w = Ok (l, w') →
  heap w' !! l = Some (ArrayObj (List.filter (keeps host F T) rows)) ∧
  grows w w'.
Proof.
  intros Hrows Hf Ht Hrun.
  destruct (interval_ok_cases F T) as [Hok|(Hrel & x & y & -> & -> & Hle)].
  { pose proof (filteredRegistrations_run host w st rows F T Hrows Hf Ht Hok)
      as H.
    unfold returns in H. by rewrite Hrun in H. }
  destruct (fromDate st) as [lf|] eqn:Hfrom; [|done].
  destruct (toDate st) as [lt|] eqn:Hto; [|done].
  simpl in Hf, Ht. unfold filteredRegistrations, Array_filter in Hrun.
  rewrite Hfrom, Hto, (bind_ok _ _ _ _ _ (getArray_run _ _ _ Hrows)) in Hrun.
  destruct (decide (Exists (λ r, truthy (approved_at r) = true) rows))
    as [Hex|Hnone].
  - rewrite (bind_throw _ _ _ _
               (filter_loop_invalid_interval host Hrel w lf lt x y rows
                  Hf Ht Hle Hex)) in Hrun.
    discriminate Hrun.
  - assert (Hall : Forall (λ r, truthy (approved_at r) = false) rows).
    { apply Forall_forall. intros r Hr.
      destruct (truthy (approved_at r)) eqn:E; [|done].
      destruct Hnone. apply Exists_exists. by exists r. }
    rewrite (bind_ok _ _ _ [] w) in Hrun
      by (apply filter_loop_no_timestamps; [left; eauto | done]).
    unfold alloc in Hrun. injection Hrun as <- <-.
    assert (Hkeep : List.filter (keeps host (Some x) (Some y)) rows = []).
    { apply filter_nil_iff. eapply Forall_impl; [exact Hall|].
      intros r Hr. apply keeps_no_timestamp; [done | left; eauto]. }
    rewrite Hkeep. split; [apply lookup_snoc_here | apply grows_snoc].
Qed.

(** The same for the whole render body. *)
Lemma ReportsTab_Ok w st rows pending F T v w' :
  heap w !! registrations st = Some (ArrayObj rows) →
  heap w !! pendingRegistrations st = Some (ArrayObj pending) →
  bound_at w (fromDate st) F → bound_at w (toDate st) T →
  ReportsTab host st w = Ok (v, w') →
  let kept := List.filter (keeps host F T) rows in
  heap w' !! r_filteredRegistrations v = Some (ArrayObj kept) ∧
  grows w w' ∧
  v = {| r_filteredRegistrations := r_filteredRegistrations v;
         r_totalRegistrations := totalRegistrations kept;
         r_totalFeesCollected := totalFeesCollected kept;
         r_totalCategories := totalCategories kept;
         r_totalPanchayaths := totalPanchayaths kept;
         r_pendingAmount := pendingAmount pending;
         r_performance := performance (totalRegistrations kept) |}.
Proof.
  intros Hrows Hpend Hf Ht Hrun. unfold ReportsTab in Hrun.
  apply bind_Ok_inv in Hrun as (l & w1 & Hl & Hrun).
  destruct (filteredRegistrations_Ok w st rows F T l w1 Hrows Hf Ht Hl)
    as [Hkept Hg].
  rewrite (bind_ok _ _ _ _ _ (getArray_run _ _ _ Hkept)) in Hrun.
  rewrite (bind_ok _ _ _ _ _
             (getArray_run _ _ _ (grows_lookup _ _ _ _ Hg Hpend))) in Hrun.
  injection Hrun as <- <-. done.
Qed.

(** What holds of a computation that returns whenever [accepted] holds also
    holds of every run of it that returns. *)
Lemma returns_when_intro {A} (accepted : Prop) (m : M A) w
    (Q : A → World → Prop) :
  (accepted → returns m w Q) →
  (∀ a w', m w = Ok (a, w') → Q a w') →
  returns_when accepted m w Q.
Proof. by split. Qed.

End AnyRelease.

(** ** The metrics *)

(** *** Binary64 addition and negative zero

    Rounding a non-zero mantissa whose exponent is not below the least one
    never gives a zero, so a sum is [-0] only when both terms are. *)











(** *** The two sums *)




Section SetNew.
Context {A : Type} `{Countable A}.

Lemma Set_add_NoDup (s : list A) x : NoDup s → NoDup (Set_add s x).
Proof.
  intros Hs. unfold Set_add. destruct (decide (x ∈ s)); [done|].
  apply NoDup_app. split_and!; [done | | apply NoDup_singleton].
  intros y Hy ->%list_elem_of_singleton. done.
Qed.

Lemma Set_add_elem (s : list A) x y : y ∈ Set_add s x ↔ y ∈ s ∨ y = x.
Proof.
  unfold Set_add. destruct (decide (x ∈ s)) as [Hx|Hx].
  - split; [by left|]. intros [Hy| ->]; done.
  - rewrite elem_of_app, list_elem_of_singleton. done.
Qed.

Lemma fold_Set_add (xs s : list A) :
  NoDup s →
  NoDup (fold_left Set_add xs s) ∧
  ∀ y, y ∈ fold_left Set_add xs s ↔ y ∈ s ∨ y ∈ xs.
Proof.
  revert s. induction xs as [|x xs IH]; intros s Hs; simpl.
  - split; [done|]. intros y. rewrite elem_of_nil. tauto.
  - destruct (IH (Set_add s x) (Set_add_NoDup s x Hs)) as [Hnd Hel].
    split; [done|]. intros y.
    rewrite Hel, Set_add_elem, elem_of_cons. tauto.
Qed.

Lemma Set_new_NoDup (xs : list A) : NoDup (Set_new xs).
Proof. apply fold_Set_add, NoDup_nil_2. Qed.

Lemma Set_new_elem (xs : list A) y : y ∈ Set_new xs ↔ y ∈ xs.
Proof.
  unfold Set_new.
  destruct (fold_Set_add xs [] (NoDup_nil_2)) as [_ Hel].
  rewrite Hel, elem_of_nil. tauto.
Qed.

(** A list without duplicates that has the elements of [xs] is as long as
    [xs] has distinct values. *)
Lemma distinct_length (l xs : list A) :
  NoDup l → (∀ y, y ∈ l ↔ y ∈ xs) → length l = distinct xs.
Proof.
  intros Hnd Hel. unfold distinct.
  rewrite <- (size_list_to_set (C := gset A) l Hnd).
  f_equal. apply set_eq. intros y.
  rewrite !elem_of_list_to_set. apply Hel.
Qed.

Lemma Set_new_length (xs : list A) : length (Set_new xs) = distinct xs.
Proof.
  apply distinct_length; [apply Set_new_NoDup | apply Set_new_elem].
Qed.

Lemma distinct_snoc_new (xs : list A) x :
  x ∉ xs → distinct (xs ++ [x]) = S (distinct xs).
Proof.
  intros Hx. unfold distinct.
  rewrite list_to_set_snoc_L, size_union, size_singleton; [lia|].
  apply disjoint_singleton_r. by rewrite elem_of_list_to_set.
Qed.

End SetNew.

(** ** The claims about the filter *)

Section FilterClaims.
Context (host : Host).

(** For a row with a timestamp that [Date] parses to [t], and valid bounds
    in order, [keeps] is the four-branch rule. *)
Lemma keeps_timestamp (F T : option Z) reg s t :
  approved_at reg = Val s → s ≠ "" → Date_parse host s = Some t →
  (∀ f e, F = Some f → T = Some e → dayStart host f ≤ dayEnd host e) →
  keeps host (Some <$> F) (Some <$> T) reg = true ↔
  match F, T with
  | None, None => True
  | Some f, None => dayStart host f ≤ t
  | None, Some e => t ≤ dayEnd host e
  | Some f, Some e => dayStart host f ≤ t ≤ dayEnd host e
  end.
Proof.
  intros Ha Hs Hp Hord. unfold keeps.
  destruct F as [f|], T as [e|]; simpl; [| | |done];
    rewrite Ha; simpl; rewrite (nonempty_eqb s Hs), Hp; simpl.
  - specialize (Hord f e eq_refl eq_refl).
    replace (0 <? dayStart host f - dayEnd host e) with false
      by (symmetry; apply Z.ltb_ge; lia).
    simpl. rewrite andb_true_iff, !Z.leb_le. done.
  - apply Z.leb_le.
  - apply Z.leb_le.
Qed.

(** With valid bounds the wrong way round, dayEnd(to) < dayStart(from),
    [keeps] (the value under date-fns 3) is the interval from dayEnd(to) to
    dayStart(from). *)
Lemma keeps_reversed (f e : Z) reg s t :
  approved_at reg = Val s → s ≠ "" → Date_parse host s = Some t →
  dayEnd host e < dayStart host f →
  keeps host (Some (Some f)) (Some (Some e)) reg = true ↔
  dayEnd host e ≤ t ≤ dayStart host f.
Proof.
  intros Ha Hs Hp Hrev. unfold keeps.
  rewrite Ha; simpl; rewrite (nonempty_eqb s Hs), Hp; simpl.
  replace (0 <? dayStart host f - dayEnd host e) with true
    by (symmetry; apply Z.ltb_lt; lia).
  simpl. rewrite andb_true_iff, !Z.leb_le. done.
Qed.

(** A row whose [approved_at] is a string that [Date] cannot parse is
    dropped as soon as one bound is set: every comparison with NaN is
    false. *)
Lemma keeps_unparseable (F T : option (option Z)) reg s :
  approved_at reg = Val s → Date_parse host s = None →
  is_Some F ∨ is_Some T → keeps host F T reg = false.
Proof.
  intros Ha Hp Hset. unfold keeps. rewrite Ha, Hp.
  destruct F as [x|], T as [y|]; simpl;
    try (by destruct Hset as [[? [=]]|[? [=]]]);
    destruct (String.eqb s ""); simpl; try done.
  by destruct (sort2 _ _).
Qed.

Lemma ordered_interval_ok (F T : option Z) :
  (∀ f e, F = Some f → T = Some e → dayStart host f ≤ dayEnd host e) →
  interval_ok host (Some <$> F) (Some <$> T).
Proof.
  intros Hord. right. intros x y.
  destruct F as [f|], T as [e|]; simpl; try done.
  intros [= <-] [= <-]. simpl. apply Z.leb_le. by apply Hord.
Qed.

(** C1 (as amended). Let the bounds be unset or valid Dates, and let [reg] be
    an approved row whose [approved_at] is a non-empty string that [Date]
    parses to the time value [t]. Under either date-fns release the filter
    returns, and [reg] is in the filtered array exactly per the four-branch
    rule: always when both bounds are unset; iff dayStart(from) ≤ t with only
    [from]; iff t ≤ dayEnd(to) with only [to]; and, when both are set and
    dayStart(from) ≤ dayEnd(to), iff dayStart(from) ≤ t ≤ dayEnd(to). A row
    approved exactly at dayStart(from) or at dayEnd(to) is in it. *)
Theorem filter_rule w st rows (F T : option Z) :
  heap w !! registrations st = Some (ArrayObj rows) →
  bound_at w (fromDate st) (Some <$> F) →
  bound_at w (toDate st) (Some <$> T) →
  (∀ f e, F = Some f → T = Some e → dayStart host f ≤ dayEnd host e) →
  returns (filteredRegistrations host st) w (λ l w',
    ∃ kept, heap w' !! l = Some (ArrayObj kept) ∧
    ∀ reg s t,
      reg ∈ rows → approved_at reg = Val s → s ≠ "" →
      Date_parse host s = Some t →
      (reg ∈ kept ↔
         match F, T with
         | None, None => True
         | Some f, None => dayStart host f ≤ t
         | None, Some e => t ≤ dayEnd host e
         | Some f, Some e => dayStart host f ≤ t ≤ dayEnd host e
         end) ∧
      (∀ f, F = Some f → t = dayStart host f → reg ∈ kept) ∧
      (∀ e, T = Some e → t = dayEnd host e → reg ∈ kept)).
Proof.
  intros Hrows Hf Ht Hord.
  eapply returns_mono.
  { eapply filteredRegistrations_run; [done | done | done |].
    by apply ordered_interval_ok. }
  intros l w' [Hl _]. simpl. eexists. split; [exact Hl|].
  intros reg s t Hin Ha Hs Hp.
  assert (Hiff : reg ∈ List.filter (keeps host (Some <$> F) (Some <$> T)) rows ↔
                 match F, T with
                 | None, None => True
                 | Some f, None => dayStart host f ≤ t
                 | None, Some e => t ≤ dayEnd host e
                 | Some f, Some e => dayStart host f ≤ t ≤ dayEnd host e
                 end).
  { rewrite elem_of_filter_bool, (keeps_timestamp F T reg s t Ha Hs Hp Hord).
    tauto. }
  split_and!; [exact Hiff | |].
  - intros f -> ->. apply Hiff. destruct T as [e|]; [|lia].
    specialize (Hord f e eq_refl eq_refl). lia.
  - intros e -> ->. apply Hiff. destruct F as [f|]; [|lia].
    specialize (Hord f e eq_refl eq_refl). lia.
Qed.

(** C8. Under either date-fns release: an approved row whose [approved_at]
    is [undefined], [null] or the empty string is not in the filtered array
    as soon as one bound is set, and is in it when both bounds are unset. The
    filter returns whenever [isWithinInterval] accepts the interval (always
    when a bound is unset), and what is said holds of every filtered array it
    returns. *)
Theorem no_timestamp w st rows (F T : option (option Z)) reg :
  heap w !! registrations st = Some (ArrayObj rows) →
  bound_at w (fromDate st) F → bound_at w (toDate st) T →
  reg ∈ rows → truthy (approved_at reg) = false →
  returns_when (interval_ok host F T) (filteredRegistrations host st) w
    (λ l w',
      ∃ kept, heap w' !! l = Some (ArrayObj kept) ∧
        (is_Some (fromDate st) ∨ is_Some (toDate st) → reg ∉ kept) ∧
        (fromDate st = None ∧ toDate st = None → reg ∈ kept)).
Proof.
  intros Hrows Hf Ht Hin Ha.
  assert (Hany : ∀ l w',
            heap w' !! l = Some (ArrayObj (List.filter (keeps host F T) rows)) →
            ∃ kept, heap w' !! l = Some (ArrayObj kept) ∧
              (is_Some (fromDate st) ∨ is_Some (toDate st) → reg ∉ kept) ∧
              (fromDate st = None ∧ toDate st = None → reg ∈ kept)).
  { intros l w' Hl. eexists. split; [exact Hl|].
    rewrite elem_of_filter_bool. split.
    - intros Hset [_ Hk].
      rewrite keeps_no_timestamp in Hk; [done | done |].
      destruct Hset as [[lf Hlf]|[lt Hlt]]; [left | right].
      + rewrite Hlf in Hf. destruct F; [by eexists | contradiction].
      + rewrite Hlt in Ht. destruct T; [by eexists | contradiction].
    - intros [Hf0 Ht0]. rewrite Hf0 in Hf. rewrite Ht0 in Ht.
      destruct F, T; try contradiction. done. }
  apply returns_when_intro.
  - intros Hok. eapply returns_mono.
    { by eapply filteredRegistrations_run. }
    intros l w' [Hl _]. by apply Hany.
  - intros l w' Hrun. apply Hany.
    by eapply filteredRegistrations_Ok.
Qed.

End FilterClaims.

(** ** The claims about the cards and the handlers

    The cards of a render are the metric functions below applied to the rows
    of the filtered array (lemma [ReportsTab_run]); the claims about them
    hold for every list of rows. *)

(** C3. [totalCategories] is the number of distinct [category_id] values of
    the filtered rows, every value counting (also [undefined], [null] and the
    empty string); [totalPanchayaths] is the number of distinct
    [panchayath_id] values that are left once the falsy ones are removed. So a
    further row whose category id occurs nowhere yet adds one to
    [totalCategories] whatever that id is, and a further row with a falsy
    panchayath id leaves [totalPanchayaths] as it is. *)
Theorem distinct_counts (rows : list Registration) (r : Registration) :
  totalCategories rows = distinct (map category_id rows) ∧
  totalPanchayaths rows = distinct (List.filter truthy (map panchayath_id rows)) ∧
  (category_id r ∉ map category_id rows →
   totalCategories (rows ++ [r]) = S (totalCategories rows)) ∧
  (truthy (panchayath_id r) = false →
   totalPanchayaths (rows ++ [r]) = totalPanchayaths rows).
Proof.
  assert (Hcat : ∀ l, totalCategories l = distinct (map category_id l)).
  { intros l. apply Set_new_length. }
  assert (Hpan : ∀ l, totalPanchayaths l
                      = distinct (List.filter truthy (map panchayath_id l))).
  { intros l. unfold totalPanchayaths. apply distinct_length.
    - apply NoDup_ListNoDup, List.NoDup_filter, NoDup_ListNoDup, Set_new_NoDup.
    - intros y. rewrite !elem_of_filter_bool, Set_new_elem. done. }
  split_and!; [apply Hcat | apply Hpan | |].
  - intros Hnew. rewrite !Hcat, map_app. simpl. by apply distinct_snoc_new.
  - intros Hfalsy. rewrite !Hpan, map_app, List.filter_app. simpl.
    by rewrite Hfalsy, app_nil_r.
Qed.

(** The empty string and [null] are two categories; the empty string and
    [null] are no panchayath. *)
Example distinct_counts_falsy :
  let rows := [ row (Val 1%float) Null (Val "") (Val "");
                row (Val 1%float) Null Null Null;
                row (Val 1%float) Null (Val "a") (Val "p");
                row (Val 1%float) Null (Val "") (Val "p") ] in
  totalCategories rows = 3%nat ∧ totalPanchayaths rows = 1%nat.
Proof. by vm_compute. Qed.


(** C7. The grade is "Excellent" above 50 filtered rows, "Good" above 20 and
    up to 50, "Fair" up to 20; so for 55, 30, 10 and 0 rows. *)
Theorem performance_grade (rows : list Registration) (r : Registration) :
  ((50 < totalRegistrations rows)%nat →
   performance (totalRegistrations rows) = "Excellent") ∧
  ((20 < totalRegistrations rows ≤ 50)%nat →
   performance (totalRegistrations rows) = "Good") ∧
  ((totalRegistrations rows ≤ 20)%nat →
   performance (totalRegistrations rows) = "Fair") ∧
  performance (totalRegistrations (replicate 55 r)) = "Excellent" ∧
  performance (totalRegistrations (replicate 30 r)) = "Good" ∧
  performance (totalRegistrations (replicate 10 r)) = "Fair" ∧
  performance (totalRegistrations []) = "Fair".
Proof.
  unfold performance. split_and!; try done.
  - intros Hn. by rewrite (proj2 (Nat.ltb_lt _ _) Hn).
  - intros [Hlo Hhi].
    rewrite (proj2 (Nat.ltb_ge _ _) Hhi). by rewrite (proj2 (Nat.ltb_lt _ _) Hlo).
  - intros Hn.
    rewrite (proj2 (Nat.ltb_ge 50 _)) by lia. by rewrite (proj2 (Nat.ltb_ge _ _) Hn).
Qed.

(** C9. Either export handler returns on every world and for every filtered
    array, empty or not; it appends one success notification and leaves the
    state and the heap as they were. *)
Theorem export_notifies (st : State) (filtered : loc) (w : World) :
  returns (handleExportExcel st filtered) w (λ st' w',
    st' = st ∧ heap w' = heap w ∧
    toasts w' = toasts w ++ [ToastSuccess "Export Excel functionality to be implemented"]) ∧
  returns (handleExportPDF st filtered) w (λ st' w',
    st' = st ∧ heap w' = heap w ∧
    toasts w' = toasts w ++ [ToastSuccess "Export PDF functionality to be implemented"]).
Proof. by split. Qed.

(** ** The claims about the render as a whole *)

Section RenderClaims.
Context (host : Host).

(** C2 (as amended). For every state that refers to two arrays and to Dates,
    under either date-fns release: when [isWithinInterval] accepts the
    interval (date-fns 3 accepts every one, a [from] later than [to]
    included; date-fns 2 accepts it unless both bounds are set and
    dayStart(from) <= dayEnd(to) fails) the render body returns. Every
    object that was on the heap is then still there unchanged, in particular
    the approved array, the pending array and the two bound Dates, and
    nothing is logged or notified; this holds of every run that returns. *)
Theorem render_total w st rows pending (F T : option (option Z)) :
  heap w !! registrations st = Some (ArrayObj rows) →
  heap w !! pendingRegistrations st = Some (ArrayObj pending) →
  bound_at w (fromDate st) F → bound_at w (toDate st) T →
  returns_when (interval_ok host F T) (ReportsTab host st) w (λ _ w',
    grows w w' ∧
    heap w' !! registrations st = heap w !! registrations st ∧
    heap w' !! pendingRegistrations st = heap w !! pendingRegistrations st ∧
    (∀ l, fromDate st = Some l ∨ toDate st = Some l →
          heap w' !! l = heap w !! l)).
Proof.
  intros Hrows Hpend Hf Ht.
  assert (Hany : ∀ w', grows w w' →
            grows w w' ∧
            heap w' !! registrations st = heap w !! registrations st ∧
            heap w' !! pendingRegistrations st
              = heap w !! pendingRegistrations st ∧
            (∀ l, fromDate st = Some l ∨ toDate st = Some l →
                  heap w' !! l = heap w !! l)).
  { intros w' Hg. split_and!; [done | | |].
    - by rewrite Hrows, (grows_lookup _ _ _ _ Hg Hrows).
    - by rewrite Hpend, (grows_lookup _ _ _ _ Hg Hpend).
    - intros l [Hl|Hl].
      + rewrite Hl in Hf. destruct F as [x|]; [|contradiction]. simpl in Hf.
        by rewrite Hf, (grows_lookup _ _ _ _ Hg Hf).
      + rewrite Hl in Ht. destruct T as [y|]; [|contradiction]. simpl in Ht.
        by rewrite Ht, (grows_lookup _ _ _ _ Hg Ht). }
  apply returns_when_intro.
  - intros Hok. eapply returns_mono; [by eapply ReportsTab_run|].
    intros v w' (_ & Hg & _). by apply Hany.
  - intros v w' Hrun. apply Hany.
    by eapply (ReportsTab_Ok host w st rows pending F T v w').
Qed.

(** C5. Under either date-fns release the filtered array holds only rows of
    the approved array, whatever the bounds, and with both bounds unset it
    holds exactly the approved rows: the filter returns whenever
    [isWithinInterval] accepts the interval (always when a bound is unset),
    and this holds of every filtered array it returns. After [handleClear]
    the filter returns exactly the approved rows. *)
Theorem filtered_subset w st rows (F T : option (option Z)) :
  heap w !! registrations st = Some (ArrayObj rows) →
  bound_at w (fromDate st) F → bound_at w (toDate st) T →
  returns_when (interval_ok host F T) (filteredRegistrations host st) w
    (λ l w',
      ∃ kept, heap w' !! l = Some (ArrayObj kept) ∧ kept ⊆ rows ∧
              (fromDate st = None ∧ toDate st = None → kept = rows)) ∧
  returns (st' ← handleClear st; filteredRegistrations host st') w (λ l w',
    heap w' !! l = Some (ArrayObj rows)).
Proof.
  intros Hrows Hf Ht.
  assert (Hany : ∀ l w',
            heap w' !! l = Some (ArrayObj (List.filter (keeps host F T) rows)) →
            ∃ kept, heap w' !! l = Some (ArrayObj kept) ∧ kept ⊆ rows ∧
                    (fromDate st = None ∧ toDate st = None → kept = rows)).
  { intros l w' Hl. eexists. split; [exact Hl|]. split.
    - apply sublist_subseteq, filter_sublist.
    - intros [Hf0 Ht0]. rewrite Hf0 in Hf. rewrite Ht0 in Ht.
      destruct F, T; try contradiction. by apply filter_all. }
  split.
  - apply returns_when_intro.
    + intros Hok. eapply returns_mono.
      { by eapply filteredRegistrations_run. }
      intros l w' [Hl _]. by apply Hany.
    + intros l w' Hrun. apply Hany. by eapply filteredRegistrations_Ok.
  - unfold handleClear. apply returns_bind, returns_ret.
    eapply returns_mono.
    { eapply (filteredRegistrations_run host w _ rows None None); try done.
      right. by intros x y [=]. }
    intros l w' [Hl _]. simpl in Hl. by rewrite filter_all in Hl.
Qed.

(** C10. Under either date-fns release the filtered rows are the approved
    rows with some of them left out, in the same order; whatever pairwise
    order the loader delivered the approved rows in, the filtered rows are in
    it too. The filter returns whenever [isWithinInterval] accepts the
    interval, and this holds of every filtered array it returns. *)
Theorem filtered_order w st rows (F T : option (option Z)) :
  heap w !! registrations st = Some (ArrayObj rows) →
  bound_at w (fromDate st) F → bound_at w (toDate st) T →
  returns_when (interval_ok host F T) (filteredRegistrations host st) w
    (λ l w',
      ∃ kept, heap w' !! l = Some (ArrayObj kept) ∧
              kept `sublist_of` rows ∧
              ∀ R : relation Registration,
                StronglySorted R rows → StronglySorted R kept).
Proof.
  intros Hrows Hf Ht.
  assert (Hany : ∀ l w',
            heap w' !! l = Some (ArrayObj (List.filter (keeps host F T) rows)) →
            ∃ kept, heap w' !! l = Some (ArrayObj kept) ∧
                    kept `sublist_of` rows ∧
                    ∀ R : relation Registration,
                      StronglySorted R rows → StronglySorted R kept).
  { intros l w' Hl. eexists. split; [exact Hl|].
    split; [apply filter_sublist|].
    intros R. apply StronglySorted_sublist, filter_sublist. }
  apply returns_when_intro.
  - intros Hok. eapply returns_mono.
    { by eapply filteredRegistrations_run. }
    intros l w' [Hl _]. by apply Hany.
  - intros l w' Hrun. apply Hany. by eapply filteredRegistrations_Ok.
Qed.


End RenderClaims.

(** ** The statements at concrete inputs *)

(** Local midnight of 1 January and of 10 January 2024, and midnight UTC of
    5 January 2024, in milliseconds. *)
Example picked_days :
  pick "2024-01-01" = Some 1704047400000 ∧
  pick "2024-01-10" = Some 1704825000000 ∧
  isoDate "2024-01-05" = Some 1704412800000.
Proof. by vm_compute. Qed.

(** Scenario A: from 1 to 10 January the first row is shown alone, with its
    fee; the pending amount is 125. *)
Example scenario_A :
  returns (ReportsTab host3 stateA) worldA (λ v w',
    heap w' !! r_filteredRegistrations v
      = Some (ArrayObj [row (Val 100%float) (Val "2024-01-05") (Val "a") Null]) ∧
    r_totalRegistrations v = 1%nat ∧ r_totalFeesCollected v = 100%float ∧
    r_pendingAmount v = 125%float).
Proof. by vm_compute. Qed.

(** Scenario B: with no bounds both rows are shown and the fees add up to
    300. *)
Example scenario_B :
  returns (ReportsTab host3 (setToDate None (setFromDate None stateA))) worldA
    (λ v w',
      heap w' !! r_filteredRegistrations v = Some (ArrayObj rowsA) ∧
      r_totalRegistrations v = 2%nat ∧ r_totalFeesCollected v = 300%float).
Proof. by vm_compute. Qed.

(** Binary64 sums depend on the order of the terms: fees 0.1, 0.2 and 0.3
    add up to 0.6000000000000001 in that order and to 0.6 in the opposite
    one. *)
Example fee_total_order :
  let fee x := row (Val x) Null Null Null in
  totalFeesCollected [fee 0x1.999999999999ap-4%float;
                      fee 0x1.999999999999ap-3%float;
                      fee 0x1.3333333333333p-2%float]
    = 0x1.3333333333334p-1%float ∧
  totalFeesCollected [fee 0x1.3333333333333p-2%float;
                      fee 0x1.999999999999ap-3%float;
                      fee 0x1.999999999999ap-4%float]
    = 0x1.3333333333333p-1%float.
Proof. by vm_compute. Qed.

(** C2, as first stated, fails under date-fns 2 when [from] is later than
    [to]: with [from] on 10 January and [to] on 1 January the state is well
    formed, and the render body throws a RangeError. *)
Lemma render_total_reversed_bounds :
  (heap worldA !! registrations stateReversed = Some (ArrayObj rowsA) ∧
   heap worldA !! pendingRegistrations stateReversed
     = Some (ArrayObj pendingD) ∧
   bound_at worldA (fromDate stateReversed) (Some (Some 1704825000000)) ∧
   bound_at worldA (toDate stateReversed) (Some (Some 1704047400000))) ∧
  ReportsTab host2 stateReversed worldA
    = Throw (RangeError "Invalid interval") ∧
  ¬ returns (ReportsTab host2 stateReversed) worldA (λ _ _, True).
Proof.
  assert (Hthrow : ReportsTab host2 stateReversed worldA
            = Throw (RangeError "Invalid interval")).
  { vm_compute. reflexivity. }
  split; [|split; [exact Hthrow|]].
  - split; [vm_compute; reflexivity|].
    split; [vm_compute; reflexivity|].
    split; vm_compute; reflexivity.
  - intros Hclaim.
    destruct (proj1 (returns_eq _ _ _) Hclaim) as (l & w' & Hrun & _).
    rewrite Hthrow in Hrun. discriminate Hrun.
Qed.



(** C1, as first stated, fails when [from] is later than [to]. With [from] on
    10 January and [to] on 1 January, the row approved on 5 January lies
    outside the interval from dayStart(from) to dayEnd(to), so the rule as
    first stated wants it left out; date-fns 3 keeps it, and date-fns 2
    throws. *)
Lemma filter_rule_reversed_bounds :
  let reg := row (Val 100%float) (Val "2024-01-05") (Val "a") Null in
  let f := 1704825000000 in
  let e := 1704047400000 in
  let t := 1704412800000 in
  (heap worldA !! registrations stateReversed = Some (ArrayObj rowsA) ∧
   bound_at worldA (fromDate stateReversed) (Some (Some f)) ∧
   bound_at worldA (toDate stateReversed) (Some (Some e)) ∧
   reg ∈ rowsA ∧ approved_at reg = Val "2024-01-05" ∧
   Date_parse host3 "2024-01-05" = Some t) ∧
  ¬ returns (filteredRegistrations host3 stateReversed) worldA (λ l w',
      ∃ kept, heap w' !! l = Some (ArrayObj kept) ∧
              (reg ∈ kept ↔ dayStart host3 f ≤ t ≤ dayEnd host3 e)) ∧
  ¬ returns (filteredRegistrations host2 stateReversed) worldA (λ l w',
      ∃ kept, heap w' !! l = Some (ArrayObj kept) ∧
              (reg ∈ kept ↔ dayStart host2 f ≤ t ≤ dayEnd host2 e)) ∧
  returns (filteredRegistrations host3 stateReversed) worldA (λ l w',
    heap w' !! l = Some (ArrayObj [reg])) ∧
  filteredRegistrations host2 stateReversed worldA
    = Throw (RangeError "Invalid interval").
Proof.
  intros reg f e t.
  assert (Hkept : returns (filteredRegistrations host3 stateReversed) worldA
            (λ l w', heap w' !! l = Some (ArrayObj [reg]))).
  { vm_compute. reflexivity. }
  assert (Hthrow : filteredRegistrations host2 stateReversed worldA
            = Throw (RangeError "Invalid interval")).
  { vm_compute. reflexivity. }
  assert (Hout : ¬ dayStart host3 f ≤ t).
  { vm_compute. intros Hle. exact (Hle eq_refl). }
  refine (conj _ (conj _ (conj _ (conj Hkept Hthrow)))).
  - split; [vm_compute; reflexivity|].
    split; [vm_compute; reflexivity|].
    split; [vm_compute; reflexivity|].
    split; [apply list_elem_of_here|].
    split; vm_compute; reflexivity.
  - intros Hclaim.
    destruct (proj1 (returns_eq _ _ _) Hclaim)
      as (l & w' & Hrun & kept & Hl' & Hiff).
    destruct (proj1 (returns_eq _ _ _) Hkept) as (l1 & w1 & Hrun1 & Hl).
    rewrite Hrun in Hrun1. injection Hrun1 as Hl1 Hw1.
    rewrite <- Hl1, <- Hw1 in Hl.
    rewrite Hl in Hl'. injection Hl' as Hk.
    apply Hout. apply Hiff. rewrite <- Hk. apply list_elem_of_here.
  - intros Hclaim.
    destruct (proj1 (returns_eq _ _ _) Hclaim) as (l & w' & Hrun & _).
    rewrite Hthrow in Hrun. discriminate Hrun.
Qed.

Lemma stateA_ordered (f e : Z) :
  Some 1704047400000 = Some f → Some 1704825000000 = Some e →
  dayStart host3 f ≤ dayEnd host3 e.
Proof. intros [= <-] [= <-]. by vm_compute. Defined.

(** Under date-fns 2, [isWithinInterval] accepts the interval from 1 to 10
    January. *)
Lemma stateA_accepted :
  interval_ok host2 (Some (Some 1704047400000)) (Some (Some 1704825000000)).
Proof.
  exact (ordered_interval_ok host2 (Some 1704047400000) (Some 1704825000000)
           stateA_ordered).
Defined.

(** The rule from 1 to 10 January 2024. *)
Lemma filter_rule_witness :
  let F := Some 1704047400000 in
  let T := Some 1704825000000 in
  heap worldA !! registrations stateA = Some (ArrayObj rowsA) ∧
  bound_at worldA (fromDate stateA) (Some <$> F) ∧
  bound_at worldA (toDate stateA) (Some <$> T) ∧
  (∀ f e, F = Some f → T = Some e → dayStart host3 f ≤ dayEnd host3 e) ∧
  returns (filteredRegistrations host3 stateA) worldA (λ l w',
    ∃ kept, heap w' !! l = Some (ArrayObj kept) ∧
    ∀ reg s t,
      reg ∈ rowsA → approved_at reg = Val s → s ≠ "" →
      Date_parse host3 s = Some t →
      (reg ∈ kept ↔ dayStart host3 1704047400000 ≤ t ≤ dayEnd host3 1704825000000) ∧
      (∀ f, F = Some f → t = dayStart host3 f → reg ∈ kept) ∧
      (∀ e, T = Some e → t = dayEnd host3 e → reg ∈ kept)).
Proof.
  split_and!; [reflexivity | reflexivity | reflexivity | exact stateA_ordered |].
  exact (filter_rule host3 worldA stateA rowsA
           (Some 1704047400000) (Some 1704825000000)
           eq_refl eq_refl eq_refl stateA_ordered).
Defined.

(** A row without timestamp, from 1 to 10 January 2024, under date-fns 2. *)
Lemma no_timestamp_witness :
  let reg := row (Val 50%float) Null (Val "a") Null in
  let F := Some (Some 1704047400000) in
  let T := Some (Some 1704825000000) in
  heap worldN !! registrations stateA = Some (ArrayObj rowsN) ∧
  bound_at worldN (fromDate stateA) F ∧ bound_at worldN (toDate stateA) T ∧
  reg ∈ rowsN ∧ truthy (approved_at reg) = false ∧
  interval_ok host2 F T ∧
  returns (filteredRegistrations host2 stateA) worldN (λ l w',
    ∃ kept, heap w' !! l = Some (ArrayObj kept) ∧
      (is_Some (fromDate stateA) ∨ is_Some (toDate stateA) → reg ∉ kept) ∧
      (fromDate stateA = None ∧ toDate stateA = None → reg ∈ kept)).
Proof.
  intros reg F T.
  assert (Hin : reg ∈ rowsN) by apply list_elem_of_here.
  destruct (no_timestamp host2 worldN stateA rowsN F T reg
              eq_refl eq_refl eq_refl Hin eq_refl) as [Hret _].
  split_and!; [reflexivity | reflexivity | reflexivity | exact Hin
              | reflexivity | exact stateA_accepted
              | exact (Hret stateA_accepted)].
Defined.


(** The render with [from] on 10 January and [to] on 1 January, under
    date-fns 3. *)
Lemma render_total_witness :
  let F := Some (Some 1704825000000) in
  let T := Some (Some 1704047400000) in
  heap worldA !! registrations stateReversed = Some (ArrayObj rowsA) ∧
  heap worldA !! pendingRegistrations stateReversed
    = Some (ArrayObj pendingD) ∧
  bound_at worldA (fromDate stateReversed) F ∧
  bound_at worldA (toDate stateReversed) T ∧
  interval_ok host3 F T ∧
  returns (ReportsTab host3 stateReversed) worldA (λ _ w',
    grows worldA w' ∧
    heap w' !! registrations stateReversed
      = heap worldA !! registrations stateReversed ∧
    heap w' !! pendingRegistrations stateReversed
      = heap worldA !! pendingRegistrations stateReversed ∧
    (∀ l, fromDate stateReversed = Some l ∨ toDate stateReversed = Some l →
          heap w' !! l = heap worldA !! l)).
Proof.
  intros F T.
  assert (Hok : interval_ok host3 F T) by exact (interval_ok_3 host3 _ _ eq_refl).
  destruct (render_total host3 worldA stateReversed rowsA pendingD F T
              eq_refl eq_refl eq_refl eq_refl) as [Hret _].
  split_and!; [reflexivity | reflexivity | reflexivity | reflexivity
              | exact Hok | exact (Hret Hok)].
Defined.

(** From 1 to 10 January under date-fns 2. *)
Lemma filtered_subset_witness :
  let F := Some (Some 1704047400000) in
  let T := Some (Some 1704825000000) in
  heap worldA !! registrations stateA = Some (ArrayObj rowsA) ∧
  bound_at worldA (fromDate stateA) F ∧ bound_at worldA (toDate stateA) T ∧
  interval_ok host2 F T ∧
  returns (filteredRegistrations host2 stateA) worldA (λ l w',
    ∃ kept, heap w' !! l = Some (ArrayObj kept) ∧ kept ⊆ rowsA ∧
            (fromDate stateA = None ∧ toDate stateA = None → kept = rowsA)) ∧
  returns (st' ← handleClear stateA; filteredRegistrations host2 st') worldA
    (λ l w', heap w' !! l = Some (ArrayObj rowsA)).
Proof.
  intros F T.
  destruct (filtered_subset host2 worldA stateA rowsA F T
              eq_refl eq_refl eq_refl) as [[Hsub _] Hclear].
  split_and!; [reflexivity | reflexivity | reflexivity | exact stateA_accepted
              | exact (Hsub stateA_accepted) | exact Hclear].
Defined.

Lemma filtered_order_witness :
  let F := Some (Some 1704047400000) in
  let T := Some (Some 1704825000000) in
  heap worldA !! registrations stateA = Some (ArrayObj rowsA) ∧
  bound_at worldA (fromDate stateA) F ∧ bound_at worldA (toDate stateA) T ∧
  interval_ok host2 F T ∧
  returns (filteredRegistrations host2 stateA) worldA (λ l w',
    ∃ kept, heap w' !! l = Some (ArrayObj kept) ∧
            kept `sublist_of` rowsA ∧
            ∀ R : relation Registration,
              StronglySorted R rowsA → StronglySorted R kept).
Proof.
  intros F T.
  destruct (filtered_order host2 worldA stateA rowsA F T
              eq_refl eq_refl eq_refl) as [Hret _].
  split_and!; [reflexivity | reflexivity | reflexivity | exact stateA_accepted
              | exact (Hret stateA_accepted)].
Defined.


(** * Further properties of the component *)

Lemma sort2_ordered (a b : option Z) : num_le a b = true → sort2 a b = (a, b).
Proof.
  destruct a as [x|], b as [y|]; simpl; try done.
  intros Hle%Z.leb_le.
  by replace (0 <? x - y) with false by (symmetry; apply Z.ltb_ge; lia).
Qed.

(** ** The two releases of date-fns *)

Section Releases.
Context (host : Host).
Hypothesis release2 : date_fns host = DateFns2.

Lemma isWithinInterval_upgrade d s e w r :
  isWithinInterval host d s e w = Ok r →
  isWithinInterval (upgrade host) d s e w = Ok r.
Proof.
  unfold isWithinInterval. rewrite release2. simpl.
  intros (x & w1 & Hx & H1)%bind_Ok_inv. rewrite (bind_ok _ _ _ _ _ Hx).
  apply bind_Ok_inv in H1 as (y & w2 & Hy & H2). rewrite (bind_ok _ _ _ _ _ Hy).
  apply bind_Ok_inv in H2 as (z & w3 & Hz & H3). rewrite (bind_ok _ _ _ _ _ Hz).
  destruct (num_le y z) eqn:Hle; simpl in H3; [|discriminate].
  by rewrite (sort2_ordered y z Hle).
Qed.

Lemma filterCallback_upgrade from to reg w r :
  filterCallback host from to reg w = Ok r →
  filterCallback (upgrade host) from to reg w = Ok r.
Proof.
  unfold filterCallback.
  destruct (negb (bool_decide (is_Some from)) && negb (bool_decide (is_Some to)));
    [done|].
  change (Date_parse (upgrade host)) with (Date_parse host).
  change (startOfDay (upgrade host)) with (startOfDay host).
  change (endOfDay (upgrade host)) with (endOfDay host).
  intros (rd & w1 & Hrd & H1)%bind_Ok_inv. rewrite (bind_ok _ _ _ _ _ Hrd).
  destruct rd as [rd|]; [|done].
  apply bind_Ok_inv in H1 as (fd & w2 & Hfd & H2). rewrite (bind_ok _ _ _ _ _ Hfd).
  apply bind_Ok_inv in H2 as (td & w3 & Htd & H3). rewrite (bind_ok _ _ _ _ _ Htd).
  destruct fd as [fd|], td as [td|]; try done.
  by apply isWithinInterval_upgrade.
Qed.

Lemma filter_loop_upgrade from to elts w r :
  filter_loop (filterCallback host from to) elts w = Ok r →
  filter_loop (filterCallback (upgrade host) from to) elts w = Ok r.
Proof.
  revert w r. induction elts as [|x rest IH]; intros w r; simpl; [done|].
  intros (keep & w1 & Hk & H1)%bind_Ok_inv.
  rewrite (bind_ok _ _ _ _ _ (filterCallback_upgrade _ _ _ _ _ Hk)).
  apply bind_Ok_inv in H1 as (kept & w2 & Hkept & H2).
  by rewrite (bind_ok _ _ _ _ _ (IH _ _ Hkept)).
Qed.

Lemma filteredRegistrations_upgrade st w r :
  filteredRegistrations host st w = Ok r →
  filteredRegistrations (upgrade host) st w = Ok r.
Proof.
  unfold filteredRegistrations, Array_filter.
  intros (elts & w1 & He & H1)%bind_Ok_inv. rewrite (bind_ok _ _ _ _ _ He).
  apply bind_Ok_inv in H1 as (kept & w2 & Hk & H2).
  by rewrite (bind_ok _ _ _ _ _ (filter_loop_upgrade _ _ _ _ _ Hk)).
Qed.

End Releases.

(** ** How the bounds combine *)

Section Bounds.
Context (host : Host).

Lemma keeps_both (f e : Z) reg :
  dayStart host f ≤ dayEnd host e →
  keeps host (Some (Some f)) (Some (Some e)) reg
  = keeps host (Some (Some f)) None reg && keeps host None (Some (Some e)) reg.
Proof.
  intros Hord. unfold keeps.
  destruct (approved_at reg) as [| |s]; try done.
  destruct (truthy (Val s)); [|done]. simpl.
  by replace (0 <? dayStart host f - dayEnd host e) with false
    by (symmetry; apply Z.ltb_ge; lia).
Qed.

(** With a bound set, [keeps] holds of the rows that have a timestamp inside
    the bounds that are set. *)
Lemma keeps_set (F T : option Z) reg :
  is_Some F ∨ is_Some T →
  (∀ f e, F = Some f → T = Some e → dayStart host f ≤ dayEnd host e) →
  keeps host (Some <$> F) (Some <$> T) reg = true ↔
  ∃ s t, approved_at reg = Val s ∧ s ≠ "" ∧ Date_parse host s = Some t ∧
         (∀ f, F = Some f → dayStart host f ≤ t) ∧
         (∀ e, T = Some e → t ≤ dayEnd host e).
Proof.
  intros Hset Hord. split.
  - intros Hk.
    destruct (approved_at reg) as [| |s] eqn:Ha;
      try (unfold keeps in Hk; rewrite Ha in Hk;
           by destruct F, T; try done; destruct Hset as [[? [=]]|[? [=]]]).
    destruct (decide (s = "")) as [->|Hs].
    { unfold keeps in Hk; rewrite Ha in Hk.
      by destruct F, T; try done; destruct Hset as [[? [=]]|[? [=]]]. }
    destruct (Date_parse host s) as [t|] eqn:Hp.
    + exists s, t. split_and!; try done.
      * intros f ->.
        apply (keeps_timestamp host (Some f) T reg s t Ha Hs Hp Hord) in Hk.
        destruct T; lia.
      * intros e ->.
        apply (keeps_timestamp host F (Some e) reg s t Ha Hs Hp Hord) in Hk.
        destruct F; lia.
    + rewrite (keeps_unparseable host _ _ reg s Ha Hp) in Hk; [done|].
      destruct Hset as [[f ->]|[e ->]]; [left | right]; by eexists.
  - intros (s & t & Ha & Hs & Hp & Hlo & Hhi).
    apply (keeps_timestamp host F T reg s t Ha Hs Hp Hord).
    destruct F as [f|], T as [e|]; try done.
    + split; [by apply Hlo | by apply Hhi].
    + by apply Hlo.
    + by apply Hhi.
Qed.

Lemma keeps_wider (F' T' F T : option Z) reg :
  wider host F' T' F T →
  (∀ f e, F = Some f → T = Some e → dayStart host f ≤ dayEnd host e) →
  keeps host (Some <$> F) (Some <$> T) reg = true →
  keeps host (Some <$> F') (Some <$> T') reg = true.
Proof.
  intros [Hfrom Hto] Hord Hk.
  destruct (decide (is_Some F' ∨ is_Some T')) as [Hset'|Hunset].
  - assert (Hset : is_Some F ∨ is_Some T).
    { destruct Hset' as [[f' ->]|[e' ->]].
      - left. destruct F; [by eexists | done].
      - right. destruct T; [by eexists | done]. }
    apply (keeps_set F T reg Hset Hord) in Hk
      as (s & t & Ha & Hs & Hp & Hlo & Hhi).
    apply (keeps_set F' T' reg Hset').
    + intros f' e' -> ->.
      destruct F as [f|]; [|done]. destruct T as [e|]; [|done].
      specialize (Hord f e eq_refl eq_refl). lia.
    + exists s, t. split_and!; try done.
      * intros f' ->. destruct F as [f|]; [|done].
        specialize (Hlo f eq_refl). lia.
      * intros e' ->. destruct T as [e|]; [|done].
        specialize (Hhi e eq_refl). lia.
  - destruct F', T'; try done; exfalso; apply Hunset; [left|left|right];
      by eexists.
Qed.

Lemma filter_sublist_impl {A} (p q : A → bool) (l : list A) :
  (∀ x, p x = true → q x = true) →
  List.filter p l `sublist_of` List.filter q l.
Proof.
  intros Hpq. induction l as [|x l IH]; simpl; [constructor|].
  destruct (p x) eqn:Hp.
  - rewrite (Hpq x Hp). by constructor.
  - destruct (q x); [by constructor | done].
Qed.

End Bounds.

Lemma rowsAt_lookup w l rows :
  heap w !! l = Some (ArrayObj rows) → rowsAt w l = Some rows.
Proof. unfold rowsAt. by intros ->. Qed.

Section BoundsTheorems.
Context (host : Host).

(** X1. Widening the date range never removes a row. If the bounds of [st']
    are at least as wide as those of [st] (a bound cleared, [from] moved to
    an earlier day, [to] moved to a later day) and the narrower pair is in
    order, then, under either date-fns release, both filters return and the
    rows of the narrower one are a subsequence of the rows of the wider
    one. *)
Theorem widening_keeps_rows w st st' rows (F T F' T' : option Z) :
  heap w !! registrations st = Some (ArrayObj rows) →
  registrations st' = registrations st →
  bound_at w (fromDate st) (Some <$> F) → bound_at w (toDate st) (Some <$> T) →
  bound_at w (fromDate st') (Some <$> F') →
  bound_at w (toDate st') (Some <$> T') →
  (∀ f e, F = Some f → T = Some e → dayStart host f ≤ dayEnd host e) →
  wider host F' T' F T →
  returns (filteredRegistrations host st) w (λ l w1,
    returns (filteredRegistrations host st') w (λ l' w2,
      ∃ kept kept', rowsAt w1 l = Some kept ∧ rowsAt w2 l' = Some kept' ∧
                    kept `sublist_of` kept')).
Proof.
  intros Hrows Hsame Hf Ht Hf' Ht' Hord Hwide.
  assert (Hord' : ∀ f e, F' = Some f → T' = Some e →
                         dayStart host f ≤ dayEnd host e).
  { intros f' e' -> ->. destruct Hwide as [Hfrom Hto].
    destruct F as [f|]; [|done]. destruct T as [e|]; [|done].
    specialize (Hord f e eq_refl eq_refl). lia. }
  eapply returns_mono.
  { eapply filteredRegistrations_run; [done | done | done |].
    by apply ordered_interval_ok. }
  intros l w1 [Hl _]. simpl.
  eapply returns_mono.
  { eapply (filteredRegistrations_run host w st' rows); [| done | done |].
    - by rewrite Hsame.
    - by apply ordered_interval_ok. }
  intros l' w2 [Hl' _]. simpl.
  eexists _, _. split_and!; [by apply rowsAt_lookup | by apply rowsAt_lookup |].
  apply filter_sublist_impl. intros r. by apply keeps_wider.
Qed.

(** X2. With both bounds set and in order, the filter keeps exactly the rows
    that the filter with [from] alone and the filter with [to] alone both
    keep, under either date-fns release. *)
Theorem both_bounds_intersect w st rows (f e : Z) :
  heap w !! registrations st = Some (ArrayObj rows) →
  bound_at w (fromDate st) (Some (Some f)) →
  bound_at w (toDate st) (Some (Some e)) →
  dayStart host f ≤ dayEnd host e →
  returns (filteredRegistrations host st) w (λ l w1,
    returns (filteredRegistrations host (setToDate None st)) w (λ lf w2,
      returns (filteredRegistrations host (setFromDate None st)) w (λ lt w3,
        ∃ both onlyFrom onlyTo,
          rowsAt w1 l = Some both ∧ rowsAt w2 lf = Some onlyFrom ∧
          rowsAt w3 lt = Some onlyTo ∧
          ∀ r, r ∈ both ↔ r ∈ onlyFrom ∧ r ∈ onlyTo))).
Proof.
  intros Hrows Hf Ht Hord.
  eapply returns_mono.
  { eapply (filteredRegistrations_run host w st rows _ _ Hrows Hf Ht).
    right. intros x y [= <-] [= <-]. simpl. by apply Z.leb_le. }
  intros l w1 [Hl _]. simpl.
  eapply returns_mono.
  { eapply (filteredRegistrations_run host w (setToDate None st) rows
              (Some (Some f)) None); try done.
    right. by intros x y _ [=]. }
  intros lf w2 [Hlf _]. simpl.
  eapply returns_mono.
  { eapply (filteredRegistrations_run host w (setFromDate None st) rows
              None (Some (Some e))); try done.
    right. by intros x y [=]. }
  intros lt w3 [Hlt _]. simpl.
  eexists _, _, _.
  split_and!; [by apply rowsAt_lookup | by apply rowsAt_lookup
              | by apply rowsAt_lookup |].
  intros r. rewrite !elem_of_filter_bool, (keeps_both host f e r Hord).
  rewrite andb_true_iff. tauto.
Qed.

(** X3. Under date-fns 2, with both bounds set and not in order (or one of
    them an Invalid Date), the filter throws [RangeError('Invalid interval')]
    as soon as one approved row has a non-empty [approved_at]; if no row has
    one (an empty approved array, say) it returns the empty array. *)
Theorem date_fns2_invalid_interval w st rows x y :
  date_fns host = DateFns2 →
  heap w !! registrations st = Some (ArrayObj rows) →
  bound_at w (fromDate st) (Some x) → bound_at w (toDate st) (Some y) →
  num_le (dayStart host <$> x) (dayEnd host <$> y) = false →
  (Exists (λ r, truthy (approved_at r) = true) rows →
   filteredRegistrations host st w = Throw (RangeError "Invalid interval")) ∧
  (Forall (λ r, truthy (approved_at r) = false) rows →
   returns (filteredRegistrations host st) w (λ l w',
     heap w' !! l = Some (ArrayObj []))).
Proof.
  intros Hrel Hrows Hf Ht Hle.
  destruct (fromDate st) as [lf|] eqn:Hfrom; [|done].
  destruct (toDate st) as [lt|] eqn:Hto; [|done].
  simpl in Hf, Ht. unfold returns, filteredRegistrations, Array_filter.
  rewrite Hfrom, Hto, (bind_ok _ _ _ _ _ (getArray_run _ _ _ Hrows)).
  split.
  - intros Hex. apply bind_throw.
    by eapply filter_loop_invalid_interval.
  - intros Hall.
    rewrite (bind_ok _ _ _ [] w)
      by (apply filter_loop_no_timestamps; [left; eauto | done]).
    apply lookup_snoc_here.
Qed.

End BoundsTheorems.

(** ** The table and the labels *)

Section ViewRun.
Context (host : Host) (fmt : Z → string).

Lemma format_run w d tv :
  heap w !! d = Some (DateObj tv) →
  format fmt d w =
    match tv with
    | Some t => Ok (fmt t, with_heap w (heap w ++ [DateObj tv]))
    | None => Throw (RangeError "Invalid time value")
    end.
Proof.
  intros Hd. unfold format.
  rewrite (bind_ok _ _ _ _ _ (timeOf_run w d tv Hd)). by destruct tv.
Qed.

Lemma tableRow_throw w r :
  dateCell host fmt r = None →
  tableRow host fmt r w = Throw (RangeError "Invalid time value").
Proof.
  unfold dateCell, tableRow. intros Hc.
  destruct (approved_at r) as [| |s]; try done.
  destruct (truthy (Val s)); [|done].
  destruct (Date_parse host s) as [t|] eqn:Hp; [done|].
  apply bind_throw.
  unfold mbind, M_bind, alloc. simpl.
  by rewrite (format_run _ _ None) by heap_lookup.
Qed.

Lemma tableRow_run w r c :
  dateCell host fmt r = Some c →
  returns (tableRow host fmt r) w (λ tr w', tr = rowWith r c ∧ grows w w').
Proof.
  unfold dateCell, tableRow, returns, mbind, M_bind, mret, M_ret. intros Hc.
  destruct (approved_at r) as [| |s];
    [injection Hc as <-; by split | injection Hc as <-; by split |].
  destruct (truthy (Val s)); [|injection Hc as <-; by split].
  destruct (Date_parse host s) as [t|] eqn:Hp; [|done].
  injection Hc as <-. unfold alloc. simpl.
  rewrite (format_run _ _ (Some t)) by heap_lookup. simpl.
  split; [done | solve_grows].
Qed.

Lemma map_loop_run w rows trs :
  mapM (rowOf host fmt) rows = Some trs →
  returns (map_loop (tableRow host fmt) rows) w
    (λ trs' w', trs' = trs ∧ grows w w').
Proof.
  revert w trs. induction rows as [|r rest IH]; intros w trs; simpl.
  - intros [= <-]. by apply returns_ret.
  - intros (tr0 & Htr & Hm)%bind_Some.
    apply bind_Some in Hm as (trs0 & Hrest & [= <-]).
    apply fmap_Some in Htr as (c & Hc & ->).
    apply returns_bind. eapply returns_mono; [by apply tableRow_run|].
    intros tr w1 [-> Hw1]. simpl.
    apply returns_bind. eapply returns_mono; [by apply IH|].
    intros trs' w2 [-> Hw2]. apply returns_ret. simpl.
    split; [done | by transitivity w1].
Qed.

Lemma map_loop_throw w rows :
  Exists (λ r, dateCell host fmt r = None) rows →
  map_loop (tableRow host fmt) rows w = Throw (RangeError "Invalid time value").
Proof.
  revert w. induction rows as [|r rest IH]; intros w Hex.
  - by apply Exists_nil in Hex.
  - simpl. destruct (dateCell host fmt r) as [c|] eqn:Hc.
    + pose proof (tableRow_run w r c Hc) as Hrun.
      apply returns_eq in Hrun as (tr & w1 & Hrun & _).
      rewrite (bind_ok _ _ _ _ _ Hrun).
      apply bind_throw, IH.
      apply Exists_cons in Hex as [Hex|Hex]; [congruence | done].
    + apply bind_throw. by apply tableRow_throw.
Qed.

Lemma dateLabel_run w d v label :
  bound_at w d v → labelOf fmt v = Some label →
  returns (dateLabel fmt d) w (λ s w', s = label ∧ grows w w').
Proof.
  destruct d as [l|], v as [tv|]; simpl; try done.
  - intros Hl Hlab. unfold returns. rewrite (format_run _ _ tv Hl).
    destruct tv as [t|]; simpl in *; [|done].
    injection Hlab as <-. split; [done | solve_grows].
  - intros _ [= <-]. by apply returns_ret.
Qed.

(** The fee column of the table rows of [rows], added from the top down,
    gives their fee card: both sums add the same numbers in the same
    order. *)
Lemma feeColumn_rows_from rows trs (init : js_number) :
  mapM (rowOf host fmt) rows = Some trs →
  length trs = length rows ∧
  fold_left (λ acc tr, (acc + cell_fee_paid tr)%float) trs init
  = fold_left (λ sum reg, (sum + or_zero (fee_paid reg))%float) rows init.
Proof.
  revert trs init. induction rows as [|r rest IH]; intros trs init; simpl.
  - by intros [= <-].
  - intros (tr0 & Htr & Hm)%bind_Some.
    apply bind_Some in Hm as (trs0 & Hrest & [= <-]).
    apply fmap_Some in Htr as (c & Hc & ->).
    destruct (IH trs0 (init + or_zero (fee_paid r))%float Hrest)
      as [Hlen Hsum].
    simpl. by rewrite Hlen, Hsum.
Qed.

Lemma feeColumn_rows rows trs :
  mapM (rowOf host fmt) rows = Some trs →
  length trs = length rows ∧ feeColumn trs = totalFeesCollected rows.
Proof. apply feeColumn_rows_from. Qed.

End ViewRun.

Section RenderRun.
Context (host : Host) (fmt : Z → string).

(** The last step of the body: the message or the table. *)
Lemma body_run w (st : State) kept trs :
  mapM (rowOf host fmt) kept = Some trs →
  returns
    (if (length kept =? 0)%nat
     then mret (EmptyMessage
            (if negb (bool_decide (is_Some (fromDate st)))
                && negb (bool_decide (is_Some (toDate st)))
             then "Please select date range to view approved registrations."
             else "No approved registrations found in the selected date range."))
     else (trs' ← map_loop (tableRow host fmt) kept; mret (Table trs')))
    w
    (λ body w',
       grows w w' ∧
       body = match kept with
              | [] => EmptyMessage
                  (if negb (bool_decide (is_Some (fromDate st)))
                      && negb (bool_decide (is_Some (toDate st)))
                   then "Please select date range to view approved registrations."
                   else "No approved registrations found in the selected date range.")
              | _ :: _ => Table trs
              end).
Proof.
  intros Hm. destruct kept as [|r rest].
  - apply returns_ret. by split.
  - change (length (r :: rest) =? 0)%nat with false.
    apply returns_bind. eapply returns_mono; [by apply map_loop_run|].
    intros trs' w' [-> Hg]. apply returns_ret. by split.
Qed.

(** One call of the component when it is not loading and no date cell
    throws. *)
Lemma ReportsTab_render_run w st rows pending F T lf lt trs :
  heap w !! registrations st = Some (ArrayObj rows) →
  heap w !! pendingRegistrations st = Some (ArrayObj pending) →
  bound_at w (fromDate st) F → bound_at w (toDate st) T →
  interval_ok host F T → loading st = false →
  labelOf fmt F = Some lf → labelOf fmt T = Some lt →
  mapM (rowOf host fmt) (List.filter (keeps host F T) rows) = Some trs →
  returns (ReportsTab_render host fmt st) w (λ v w',
    let kept := List.filter (keeps host F T) rows in
    grows w w' ∧
    ∃ cards,
      v = Report lf lt cards
            match kept with
            | [] => EmptyMessage
                (if negb (bool_decide (is_Some (fromDate st)))
                    && negb (bool_decide (is_Some (toDate st)))
                 then "Please select date range to view approved registrations."
                 else "No approved registrations found in the selected date range.")
            | _ :: _ => Table trs
            end ∧
      rowsAt w' (r_filteredRegistrations cards) = Some kept ∧
      figures kept = (r_totalRegistrations cards, r_totalFeesCollected cards,
                      r_totalCategories cards, r_totalPanchayaths cards) ∧
      r_pendingAmount cards = pendingAmount pending ∧
      r_performance cards = performance (length kept)).
Proof.
  intros Hrows Hpend Hf Ht Hok Hload Hlf Hlt Hm. unfold ReportsTab_render.
  apply returns_bind. eapply returns_mono; [by eapply ReportsTab_run|].
  intros cards w1 (Hk & Hw1 & Hcards). simpl in Hk. rewrite Hload.
  apply returns_bind. eapply returns_mono.
  { eapply dateLabel_run; [by eapply grows_bound_at | done]. }
  intros s1 w2 [-> Hw2]. simpl.
  apply returns_bind. eapply returns_mono.
  { eapply dateLabel_run; [|done].
    eapply grows_bound_at; [|done]. by transitivity w1. }
  intros s2 w3 [-> Hw3]. simpl.
  assert (Hk3 : heap w3 !! r_filteredRegistrations cards
                = Some (ArrayObj (List.filter (keeps host F T) rows))).
  { eapply grows_lookup; [|done]. by transitivity w2. }
  apply returns_bind. unfold returns at 1. rewrite (getArray_run _ _ _ Hk3).
  apply returns_bind. eapply returns_mono; [by apply body_run|].
  intros body w4 [Hw4 ->]. apply returns_ret. simpl.
  assert (Hg : grows w w4).
  { transitivity w1; [done|]. transitivity w2; [done|].
    by transitivity w3. }
  split; [done|]. exists cards.
  split; [done|].
  split; [apply rowsAt_lookup; exact (grows_lookup _ _ _ _ Hw4 Hk3)|].
  split_and!; by rewrite Hcards.
Qed.

(** The same call when the date cell of a kept row throws. *)
Lemma ReportsTab_render_throw w st rows pending F T lf lt :
  heap w !! registrations st = Some (ArrayObj rows) →
  heap w !! pendingRegistrations st = Some (ArrayObj pending) →
  bound_at w (fromDate st) F → bound_at w (toDate st) T →
  interval_ok host F T → loading st = false →
  labelOf fmt F = Some lf → labelOf fmt T = Some lt →
  Exists (λ r, dateCell host fmt r = None)
    (List.filter (keeps host F T) rows) →
  ReportsTab_render host fmt st w = Throw (RangeError "Invalid time value").
Proof.
  intros Hrows Hpend Hf Ht Hok Hload Hlf Hlt Hex. unfold ReportsTab_render.
  pose proof (ReportsTab_run host w st rows pending F T
                Hrows Hpend Hf Ht Hok) as Hrun.
  apply returns_eq in Hrun as (cards & w1 & Hrun & Hk & Hw1 & _).
  simpl in Hk. rewrite (bind_ok _ _ _ _ _ Hrun), Hload.
  pose proof (dateLabel_run fmt w1 _ _ lf (grows_bound_at _ _ _ _ Hw1 Hf) Hlf)
    as Hl1.
  apply returns_eq in Hl1 as (s1 & w2 & Hl1 & _ & Hw2).
  rewrite (bind_ok _ _ _ _ _ Hl1).
  assert (Hw12 : grows w w2) by by transitivity w1.
  pose proof (dateLabel_run fmt w2 _ _ lt (grows_bound_at _ _ _ _ Hw12 Ht) Hlt)
    as Hl2.
  apply returns_eq in Hl2 as (s2 & w3 & Hl2 & _ & Hw3).
  rewrite (bind_ok _ _ _ _ _ Hl2).
  assert (Hk3 : heap w3 !! r_filteredRegistrations cards
                = Some (ArrayObj (List.filter (keeps host F T) rows))).
  { eapply grows_lookup; [|done]. by transitivity w2. }
  rewrite (bind_ok _ _ _ _ _ (getArray_run _ _ _ Hk3)).
  apply bind_throw.
  destruct (List.filter (keeps host F T) rows) as [|r rest] eqn:Hkept.
  - by apply Exists_nil in Hex.
  - change (length (r :: rest) =? 0)%nat with false.
    apply bind_throw. by apply map_loop_throw.
Qed.

End RenderRun.

Section DateCells.
Context (host : Host) (fmt : Z → string).

Lemma dateCell_None r : dateCell host fmt r = None ↔ unparseable host r.
Proof.
  unfold dateCell, unparseable. split.
  - destruct (approved_at r) as [| |s]; try done. simpl.
    destruct (String.eqb_spec s ""); simpl; [done|].
    destruct (Date_parse host s) eqn:Hp; [done|]. intros _. by exists s.
  - intros (s & -> & Hs & Hp). simpl.
    by rewrite (nonempty_eqb s Hs), Hp.
Qed.

(** With a bound set, a row that [keeps] selects has a timestamp that
    [Date] parses: its date cell is a formatted date. *)
Lemma keeps_dateCell (F T : option (option Z)) r :
  is_Some F ∨ is_Some T → keeps host F T r = true →
  ∃ t, dateCell host fmt r = Some (fmt t).
Proof.
  intros Hset Hk. unfold dateCell.
  assert (Hboth : ¬ (F = None ∧ T = None)).
  { intros [-> ->]. by destruct Hset as [[? [=]]|[? [=]]]. }
  destruct (approved_at r) as [| |s] eqn:Ha;
    try (unfold keeps in Hk; rewrite Ha in Hk;
         destruct F, T; try done; by destruct Hboth).
  destruct (truthy (Val s)) eqn:Hs.
  - destruct (Date_parse host s) as [t|] eqn:Hp; [by exists t|].
    by rewrite (keeps_unparseable host F T r s Ha Hp Hset) in Hk.
  - unfold keeps in Hk. rewrite Ha, Hs in Hk.
    destruct F, T; try done. by destruct Hboth.
Qed.

Lemma mapM_rowOf rows :
  Forall (λ r, ¬ unparseable host r) rows →
  ∃ trs, mapM (rowOf host fmt) rows = Some trs.
Proof.
  intros Hall. apply mapM_is_Some. eapply Forall_impl; [exact Hall|].
  intros r Hr. simpl. unfold rowOf.
  destruct (dateCell host fmt r) as [c|] eqn:Hc; [by eexists|].
  by apply dateCell_None in Hc.
Qed.

Lemma mapM_rowOf_dates rows trs :
  mapM (rowOf host fmt) rows = Some trs →
  Forall (λ r, ∃ t, dateCell host fmt r = Some (fmt t)) rows →
  Forall (λ tr, ∃ t, cell_approved_date tr = fmt t) trs.
Proof.
  revert trs. induction rows as [|r rest IH]; intros trs; simpl.
  - intros [= <-] _. constructor.
  - intros (tr0 & Htr & Hm)%bind_Some [[t Ht] Hall]%Forall_cons.
    apply bind_Some in Hm as (trs0 & Hrest & [= <-]).
    apply fmap_Some in Htr as (c & Hc & ->).
    constructor; [|by apply IH].
    exists t. simpl. congruence.
Qed.

End DateCells.

Section ViewTheorems.
Context (host : Host) (fmt : Z → string).

Lemma labelOf_valid (v : option Z) :
  labelOf fmt (Some <$> v) = Some (buttonLabel fmt v).
Proof. by destruct v. Qed.

Lemma ReportsTab_render_loading w st rows pending F T :
  heap w !! registrations st = Some (ArrayObj rows) →
  heap w !! pendingRegistrations st = Some (ArrayObj pending) →
  bound_at w (fromDate st) F → bound_at w (toDate st) T →
  interval_ok host F T → loading st = true →
  returns (ReportsTab_render host fmt st) w (λ v w', v = Spinner ∧ grows w w').
Proof.
  intros Hrows Hpend Hf Ht Hok Hload. unfold ReportsTab_render.
  apply returns_bind. eapply returns_mono; [by eapply ReportsTab_run|].
  intros cards w1 (_ & Hw1 & _). rewrite Hload. by apply returns_ret.
Qed.

Lemma filter_Forall {A} (P : A → Prop) (p : A → bool) (l : list A) :
  Forall P l → Forall P (List.filter p l).
Proof.
  intros Hall. apply Forall_forall. intros x [Hx _]%elem_of_filter_bool.
  by eapply Forall_forall in Hall.
Qed.

Lemma filter_Forall_true {A} (p : A → bool) (l : list A) :
  Forall (λ x, p x = true) (List.filter p l).
Proof. apply Forall_forall. by intros x [_ Hx]%elem_of_filter_bool. Qed.

(** X4. With at least one bound set, the component never throws on account of
    the rows: under either release, once [isWithinInterval] accepts the
    interval, it returns the report, whatever the approved rows hold. Every
    row of the table has a formatted date (never 'N/A'), and when no row is
    kept the message is the one about the selected date range. *)
Theorem report_with_bounds w st rows pending (F T : option Z) :
  heap w !! registrations st = Some (ArrayObj rows) →
  heap w !! pendingRegistrations st = Some (ArrayObj pending) →
  bound_at w (fromDate st) (Some <$> F) →
  bound_at w (toDate st) (Some <$> T) →
  interval_ok host (Some <$> F) (Some <$> T) →
  loading st = false → is_Some F ∨ is_Some T →
  returns (ReportsTab_render host fmt st) w (λ v w',
    grows w w' ∧
    ∃ cards body,
      v = Report (buttonLabel fmt F) (buttonLabel fmt T) cards body ∧
      match body with
      | EmptyMessage msg =>
          msg = "No approved registrations found in the selected date range."
          ∧ r_totalRegistrations cards = 0%nat
      | Table trs =>
          trs ≠ [] ∧ length trs = r_totalRegistrations cards ∧
          Forall (λ tr, ∃ t, cell_approved_date tr = fmt t) trs
      end).
Proof.
  intros Hrows Hpend Hf Ht Hok Hload Hset.
  set (kept := List.filter (keeps host (Some <$> F) (Some <$> T)) rows).
  assert (Hset' : is_Some (Some <$> F) ∨ is_Some (Some <$> T)).
  { destruct Hset as [[f ->]|[e ->]]; [left | right]; by eexists. }
  assert (Hdates : Forall (λ r, ∃ t, dateCell host fmt r = Some (fmt t)) kept).
  { eapply Forall_impl; [apply filter_Forall_true|].
    intros r Hk. by eapply keeps_dateCell. }
  assert (Hsome : ∃ trs, mapM (rowOf host fmt) kept = Some trs).
  { apply mapM_is_Some. eapply Forall_impl; [exact Hdates|].
    intros r [t Hr]. simpl. unfold rowOf. rewrite Hr. by eexists. }
  destruct Hsome as [trs Hm].
  assert (Hmsg : negb (bool_decide (is_Some (fromDate st)))
                 && negb (bool_decide (is_Some (toDate st))) = false).
  { destruct Hset as [[f ->]|[e ->]].
    - destruct (fromDate st); [done | contradiction].
    - destruct (toDate st); [|contradiction].
      by rewrite andb_false_r. }
  eapply returns_mono.
  { eapply (ReportsTab_render_run host fmt w st rows pending);
      try done; apply labelOf_valid. }
  intros v w' (Hg & cards & -> & _ & Hfig & _). simpl. split; [done|].
  eexists _, _. split; [reflexivity|].
  fold kept in Hfig |- *. unfold figures in Hfig.
  injection Hfig as Hn _ _ _.
  destruct (feeColumn_rows host fmt kept trs Hm) as [Hlen _].
  destruct kept as [|r rest] eqn:Hkept.
  - by rewrite Hmsg.
  - split_and!.
    + intros ->. done.
    + by rewrite Hlen, <- Hn.
    + by eapply mapM_rowOf_dates.
Qed.

(** X5. With no bound set the table shows every approved row, and the
    component throws [RangeError('Invalid time value')] exactly when some
    approved row has a non-empty [approved_at] that [Date] cannot parse,
    under either release. The message that asks to select a date range
    appears only when the approved array is empty. *)
Theorem report_without_bounds w st rows pending :
  heap w !! registrations st = Some (ArrayObj rows) →
  heap w !! pendingRegistrations st = Some (ArrayObj pending) →
  fromDate st = None → toDate st = None → loading st = false →
  (Forall (λ r, ¬ unparseable host r) rows →
   returns (ReportsTab_render host fmt st) w (λ v w',
     grows w w' ∧
     ∃ cards body,
       v = Report "Pick a date" "Pick a date" cards body ∧
       r_totalRegistrations cards = length rows ∧
       match body with
       | EmptyMessage msg =>
           msg = "Please select date range to view approved registrations."
           ∧ rows = []
       | Table trs => length trs = length rows ∧ rows ≠ []
       end)) ∧
  (Exists (unparseable host) rows →
   ReportsTab_render host fmt st w = Throw (RangeError "Invalid time value")).
Proof.
  intros Hrows Hpend Hfrom Hto Hload.
  assert (Hf : bound_at w (fromDate st) None) by by rewrite Hfrom.
  assert (Ht : bound_at w (toDate st) None) by by rewrite Hto.
  assert (Hok : interval_ok host None None) by (right; by intros x y [=]).
  assert (Hall : List.filter (keeps host None None) rows = rows)
    by by apply filter_all.
  split.
  - intros Hgood. destruct (mapM_rowOf host fmt rows Hgood) as [trs Hm].
    eapply returns_mono.
    { eapply (ReportsTab_render_run host fmt w st rows pending None None);
        try done. by rewrite Hall. }
    intros v w' (Hg & cards & -> & _ & Hfig & _). simpl. split; [done|].
    rewrite Hall in Hfig |- *. unfold figures in Hfig.
    injection Hfig as Hn _ _ _.
    eexists _, _. split; [reflexivity|]. split; [done|].
    destruct (feeColumn_rows host fmt rows trs Hm) as [Hlen _].
    destruct rows as [|r rest].
    + by rewrite Hfrom, Hto.
    + by split.
  - intros Hbad.
    eapply (ReportsTab_render_throw host fmt w st rows pending None None);
      try done.
    rewrite Hall. eapply Exists_impl; [exact Hbad|].
    intros r Hr. by apply dateCell_None.
Qed.

(** X6. The table agrees with the cards. When no approved row has an
    unparseable timestamp and [isWithinInterval] accepts the interval, the
    component returns the spinner exactly while loading, and otherwise a
    report whose table has as many rows as the registrations card says and a
    fee column that, added from the top row down in binary64 arithmetic,
    gives the fees card; the message stands in for the table only when the
    registrations card says 0. *)
Theorem table_matches_cards w st rows pending (F T : option Z) :
  heap w !! registrations st = Some (ArrayObj rows) →
  heap w !! pendingRegistrations st = Some (ArrayObj pending) →
  bound_at w (fromDate st) (Some <$> F) →
  bound_at w (toDate st) (Some <$> T) →
  interval_ok host (Some <$> F) (Some <$> T) →
  Forall (λ r, ¬ unparseable host r) rows →
  returns (ReportsTab_render host fmt st) w (λ v w',
    grows w w' ∧ consistent v ∧ (v = Spinner ↔ loading st = true)).
Proof.
  intros Hrows Hpend Hf Ht Hok Hgood.
  destruct (loading st) eqn:Hload.
  - eapply returns_mono.
    { by eapply (ReportsTab_render_loading w st rows pending). }
    intros v w' [-> Hg]. by split_and!.
  - set (kept := List.filter (keeps host (Some <$> F) (Some <$> T)) rows).
    destruct (mapM_rowOf host fmt kept) as [trs Hm].
    { by apply filter_Forall. }
    eapply returns_mono.
    { eapply (ReportsTab_render_run host fmt w st rows pending);
        try done; apply labelOf_valid. }
    intros v w' (Hg & cards & -> & _ & Hfig & _). simpl. split; [done|].
    fold kept in Hfig |- *. unfold figures in Hfig.
    injection Hfig as Hn Hfee _ _.
    destruct (feeColumn_rows host fmt kept trs Hm) as [Hlen Hsum].
    split; [|split; [done | intros [=]]].
    destruct kept as [|r rest] eqn:Hkept; simpl.
    + by rewrite <- Hn.
    + split_and!.
      * intros ->. done.
      * by rewrite Hlen, <- Hn.
      * by rewrite Hsum, <- Hfee.
Qed.

End ViewTheorems.

(** ** The loaders *)

Lemma payload_default data :
  default [] data = payload (Resolved data None).
Proof. by destruct data. Qed.

(** What the approved loader changes when its response arrives. *)
Lemma fetchRegistrations_resume_observe r s :
  refs_ok s →
  refs_ok (fetchRegistrations_resume r s) ∧
  heap (scr_world s) `prefix_of` heap (scr_world (fetchRegistrations_resume r s)) ∧
  observe (fetchRegistrations_resume r s) =
    {| o_loading := false;
       o_from := o_from (observe s); o_to := o_to (observe s);
       o_approved := loaded r (o_approved (observe s));
       o_pending := o_pending (observe s);
       o_toasts := o_toasts (observe s) ++ notified r;
       o_console := o_console (observe s) |}.
Proof.
  intros [Ha Hp]. destruct s as [st w errs]. simpl in Ha, Hp.
  destruct r as [data [e|]|e]; unfold observe, loaded, notified, refs_ok; simpl;
    try (by rewrite ?app_nil_r).
  rewrite length_app. simpl. split; [lia|]. split; [by apply prefix_app_r|].
  unfold rowsAt at 1 2. simpl.
  rewrite lookup_snoc_here, (lookup_app_l _ _ _ Hp), app_nil_r.
  by rewrite payload_default.
Qed.

(** What the pending loader changes when its response arrives. *)
Lemma fetchPendingRegistrations_resume_observe r s :
  refs_ok s →
  refs_ok (fetchPendingRegistrations_resume r s) ∧
  heap (scr_world s)
    `prefix_of` heap (scr_world (fetchPendingRegistrations_resume r s)) ∧
  observe (fetchPendingRegistrations_resume r s) =
    {| o_loading := o_loading (observe s);
       o_from := o_from (observe s); o_to := o_to (observe s);
       o_approved := o_approved (observe s);
       o_pending := loaded r (o_pending (observe s));
       o_toasts := o_toasts (observe s);
       o_console := o_console (observe s) |}.
Proof.
  intros [Ha Hp]. destruct s as [st w errs]. simpl in Ha, Hp.
  destruct r as [data [e|]|e]; unfold observe, loaded, refs_ok; simpl;
    try done.
  rewrite length_app. simpl. split; [lia|]. split; [by apply prefix_app_r|].
  unfold rowsAt at 1 2. simpl.
  rewrite lookup_snoc_here, (lookup_app_l _ _ _ Ha).
  by rewrite payload_default.
Qed.

Lemma fetchRegistrations_start_observe s :
  refs_ok s →
  refs_ok (fetchRegistrations_start s) ∧
  scr_world (fetchRegistrations_start s) = scr_world s ∧
  observe (fetchRegistrations_start s) =
    {| o_loading := true;
       o_from := o_from (observe s); o_to := o_to (observe s);
       o_approved := o_approved (observe s);
       o_pending := o_pending (observe s);
       o_toasts := o_toasts (observe s);
       o_console := o_console (observe s) |}.
Proof. by destruct s. Qed.

Lemma mount_observe w :
  refs_ok (mount w) ∧
  observe (mount w) =
    {| o_loading := true; o_from := None; o_to := None;
       o_approved := Some []; o_pending := Some [];
       o_toasts := toasts w; o_console := console w |}.
Proof.
  unfold refs_ok, observe, mount, rowsAt. simpl.
  rewrite length_app. simpl. split; [lia|].
  rewrite (list_lookup_middle (heap w) [ArrayObj []] (ArrayObj []) _ eq_refl).
  replace (heap w ++ [ArrayObj []; ArrayObj []])
    with ((heap w ++ [ArrayObj []]) ++ [ArrayObj []])
    by by rewrite <- app_assoc.
  rewrite (list_lookup_middle (heap w ++ [ArrayObj []]) [] (ArrayObj [])
             (S (length (heap w)))); [done|].
  rewrite length_app. simpl. lia.
Qed.

Lemma rowsAt_Some w l rows :
  rowsAt w l = Some rows → heap w !! l = Some (ArrayObj rows).
Proof.
  unfold rowsAt. destruct (heap w !! l) as [[tv|elts]|]; try done.
  by intros [= ->].
Qed.

(** What both arrival orders leave to be seen. *)
Lemma useEffect_observe order ra rp s :
  refs_ok s →
  refs_ok (useEffect order ra rp s) ∧
  observe (useEffect order ra rp s) =
    {| o_loading := false;
       o_from := o_from (observe s); o_to := o_to (observe s);
       o_approved := loaded ra (o_approved (observe s));
       o_pending := loaded rp (o_pending (observe s));
       o_toasts := o_toasts (observe s) ++ notified ra;
       o_console := o_console (observe s) |}.
Proof.
  intros Hs. unfold useEffect.
  destruct (fetchRegistrations_start_observe s Hs) as (H1 & _ & E1).
  destruct order.
  - destruct (fetchRegistrations_resume_observe ra _ H1) as (H2 & _ & E2).
    destruct (fetchPendingRegistrations_resume_observe rp _ H2) as (H3 & _ & E3).
    split; [done|]. rewrite E3, E2, E1. done.
  - destruct (fetchPendingRegistrations_resume_observe rp _ H1) as (H2 & _ & E2).
    destruct (fetchRegistrations_resume_observe ra _ H2) as (H3 & _ & E3).
    split; [done|]. rewrite E3, E2, E1. done.
Qed.

(** X7. The order in which the two responses arrive does not matter. From a
    screen whose two references are in the heap, either order ends with the
    loading flag cleared, the bounds untouched, each array replaced by the
    payload of its own response (or left as it was if that response failed),
    and one error notification exactly when the approved response failed: a
    failed pending response notifies nothing. Only the order of the
    [console.error] lines differs. *)
Theorem arrival_order_irrelevant s ra rp :
  refs_ok s →
  (∀ order,
     observe (useEffect order ra rp s) =
       {| o_loading := false;
          o_from := o_from (observe s); o_to := o_to (observe s);
          o_approved := loaded ra (o_approved (observe s));
          o_pending := loaded rp (o_pending (observe s));
          o_toasts := o_toasts (observe s) ++ notified ra;
          o_console := o_console (observe s) |}) ∧
  scr_errors (useEffect ApprovedFirst ra rp s)
    ≡ₚ scr_errors (useEffect PendingFirst ra rp s).
Proof.
  intros Hs. split.
  - intros order. by apply useEffect_observe.
  - destruct s as [st w errs].
    destruct ra as [da [ea|]|ea], rp as [dp [ep|]|ep]; simpl; try done;
      rewrite <- !app_assoc; apply Permutation_app_head, perm_swap.
Qed.

Section LoadedScreen.
Context (host : Host) (fmt : Z → string).

(** X8. What the screen shows once both responses have been handled after
    the first render, in either order and under either release. The approved
    rows are the payload of the approved response, or none if it failed, and
    likewise the pending rows; if no approved row has an unparseable
    timestamp, the component returns the report with both buttons unset, the
    registrations card at the number of approved rows, the fees card at
    [totalFeesCollected] of all of them and the pending card at
    [pendingAmount] of the pending rows. The
    message appears in place of the table exactly when there are no approved
    rows, and there is one error notification exactly when the approved
    response failed (then all cards but the pending one read 0). *)
Theorem screen_after_loading w order ra rp rows prows :
  loaded ra (Some []) = Some rows → loaded rp (Some []) = Some prows →
  Forall (λ r, ¬ unparseable host r) rows →
  let s := useEffect order ra rp (mount w) in
  toasts (scr_world s) = toasts w ++ notified ra ∧
  (is_Some (failure ra) → rows = []) ∧
  returns (ReportsTab_render host fmt (scr_state s)) (scr_world s) (λ v _,
    ∃ cards body,
      v = Report "Pick a date" "Pick a date" cards body ∧
      r_totalRegistrations cards = length rows ∧
      r_totalFeesCollected cards = totalFeesCollected rows ∧
      r_pendingAmount cards = pendingAmount prows ∧
      match body with
      | EmptyMessage msg =>
          msg = "Please select date range to view approved registrations."
          ∧ rows = []
      | Table trs => length trs = length rows ∧ rows ≠ []
      end).
Proof.
  intros Hrows Hprows Hgood s.
  destruct (mount_observe w) as [Hm Em].
  destruct (useEffect_observe order ra rp (mount w) Hm) as [Hs Es].
  fold s in Hs, Es. rewrite Em in Es. simpl in Es.
  rewrite Hrows, Hprows in Es.
  assert (Hload : loading (scr_state s) = false)
    by exact (f_equal o_loading Es).
  assert (Hfrom : fromDate (scr_state s) = None)
    by exact (f_equal o_from Es).
  assert (Hto : toDate (scr_state s) = None) by exact (f_equal o_to Es).
  assert (Ha : heap (scr_world s) !! registrations (scr_state s)
               = Some (ArrayObj rows))
    by exact (rowsAt_Some _ _ _ (f_equal o_approved Es)).
  assert (Hp : heap (scr_world s) !! pendingRegistrations (scr_state s)
               = Some (ArrayObj prows))
    by exact (rowsAt_Some _ _ _ (f_equal o_pending Es)).
  split; [exact (f_equal o_toasts Es)|]. split.
  { intros [e He]. unfold loaded in Hrows. rewrite He in Hrows. congruence. }
  assert (Hf : bound_at (scr_world s) (fromDate (scr_state s)) None)
    by by rewrite Hfrom.
  assert (Ht : bound_at (scr_world s) (toDate (scr_state s)) None)
    by by rewrite Hto.
  assert (Hok : interval_ok host None None) by (right; by intros x y [=]).
  assert (Hall : List.filter (keeps host None None) rows = rows)
    by by apply filter_all.
  destruct (mapM_rowOf host fmt rows Hgood) as [trs Hm'].
  eapply returns_mono.
  { eapply (ReportsTab_render_run host fmt _ _ rows prows None None);
      try done. by rewrite Hall. }
  intros v w' (_ & cards & -> & _ & Hfig & Hpa & _). simpl.
  rewrite Hall in Hfig |- *. unfold figures in Hfig.
  injection Hfig as Hn Hfee _ _.
  destruct (feeColumn_rows host fmt rows trs Hm') as [Hlen _].
  eexists _, _. split; [reflexivity|].
  split; [done|].
  split; [done|]. split; [done|].
  destruct rows as [|r rest].
  - by rewrite Hfrom, Hto.
  - by split.
Qed.

(** X9. The spinner stays until the approved response has been handled. On
    the first render, after both loaders have started, and after the pending
    response has arrived (whatever it is, and under either release) the
    component returns the spinner; the pending loader has notified
    nothing. *)
Theorem spinner_until_approved w rp :
  let s0 := mount w in
  let s1 := fetchRegistrations_start s0 in
  let s2 := fetchPendingRegistrations_resume rp s1 in
  returns (ReportsTab_render host fmt (scr_state s0)) (scr_world s0)
    (λ v _, v = Spinner) ∧
  returns (ReportsTab_render host fmt (scr_state s1)) (scr_world s1)
    (λ v _, v = Spinner) ∧
  returns (ReportsTab_render host fmt (scr_state s2)) (scr_world s2)
    (λ v _, v = Spinner) ∧
  toasts (scr_world s2) = toasts w.
Proof.
  intros s0 s1 s2.
  destruct (mount_observe w) as [H0 E0]. fold s0 in H0, E0.
  destruct (fetchRegistrations_start_observe s0 H0) as (H1 & _ & E1).
  fold s1 in H1, E1. rewrite E0 in E1. simpl in E1.
  destruct (fetchPendingRegistrations_resume_observe rp s1 H1) as (H2 & _ & E2).
  fold s2 in H2, E2. rewrite E1 in E2. simpl in E2.
  assert (Hspin : ∀ s a p, observe s =
            {| o_loading := true; o_from := None; o_to := None;
               o_approved := Some a; o_pending := p;
               o_toasts := toasts w; o_console := console w |} →
            is_Some p →
            returns (ReportsTab_render host fmt (scr_state s)) (scr_world s)
              (λ v _, v = Spinner)).
  { intros s a p Es [prows ->].
    eapply returns_mono.
    { eapply (ReportsTab_render_loading host fmt _ _ a prows None None).
      - exact (rowsAt_Some _ _ _ (f_equal o_approved Es)).
      - exact (rowsAt_Some _ _ _ (f_equal o_pending Es)).
      - by rewrite (f_equal o_from Es : fromDate (scr_state s) = None).
      - by rewrite (f_equal o_to Es : toDate (scr_state s) = None).
      - right. by intros x y [=].
      - exact (f_equal o_loading Es). }
    by intros v w' [-> _]. }
  split_and!.
  - by eapply Hspin.
  - by eapply Hspin.
  - eapply Hspin; [exact E2|]. unfold loaded. by destruct (failure rp).
  - exact (f_equal o_toasts E2).
Qed.

End LoadedScreen.

(** ** The release of date-fns and the whole component *)

Section RenderReleases.
Context (host : Host) (fmt : Z → string).
Hypothesis release2 : date_fns host = DateFns2.

Lemma ReportsTab_upgrade st w r :
  ReportsTab host st w = Ok r → ReportsTab (upgrade host) st w = Ok r.
Proof.
  unfold ReportsTab.
  intros (l & w1 & Hl & H1)%bind_Ok_inv.
  by rewrite (bind_ok _ _ _ _ _ (filteredRegistrations_upgrade host release2 _ _ _ Hl)).
Qed.

End RenderReleases.

(** X10. Moving from date-fns 2 to date-fns 3 changes no render that
    returned: whatever the component returns under release 2 (spinner or
    report, with the world it leaves), it returns under release 3 from the
    same state and world. *)
Theorem upgrade_keeps_render host fmt st w r :
  date_fns host = DateFns2 →
  ReportsTab_render host fmt st w = Ok r →
  ReportsTab_render (upgrade host) fmt st w = Ok r.
Proof.
  intros Hrel. unfold ReportsTab_render.
  intros (cards & w1 & Hc & H1)%bind_Ok_inv.
  rewrite (bind_ok _ _ _ _ _ (ReportsTab_upgrade host Hrel _ _ _ Hc)).
  exact H1.
Qed.

(** ** The cards *)

Lemma Set_new_le {A} `{Countable A} (xs : list A) :
  (length (Set_new xs) ≤ length xs)%nat.
Proof.
  apply submseteq_length, NoDup_submseteq; [apply Set_new_NoDup|].
  intros x. by rewrite Set_new_elem.
Qed.





(** X11. How the cards bound each other. Neither the categories card nor
    the panchayaths card exceeds the registrations card; the categories card
    reads 0 only when there are no rows, while the panchayaths card reads 0
    exactly when no row has a truthy [panchayath_id]. *)
Theorem card_bounds (rows : list Registration) :
  (totalCategories rows ≤ totalRegistrations rows)%nat ∧
  (totalPanchayaths rows ≤ totalRegistrations rows)%nat ∧
  (totalCategories rows = 0%nat ↔ rows = []) ∧
  (totalPanchayaths rows = 0%nat
   ↔ Forall (λ r, truthy (panchayath_id r) = false) rows).
Proof.
  unfold totalCategories, totalPanchayaths, totalRegistrations.
  assert (Hc : (length (Set_new (map category_id rows)) ≤ length rows)%nat).
  { etrans; [apply Set_new_le|]. by rewrite length_map. }
  assert (Hp : (length (Set_new (map panchayath_id rows)) ≤ length rows)%nat).
  { etrans; [apply Set_new_le|]. by rewrite length_map. }
  split_and!.
  - done.
  - etrans; [|exact Hp]. apply sublist_length, filter_sublist.
  - split; [|by intros ->].
    intros Hz%length_zero_iff_nil. destruct rows as [|r rest]; [done|].
    assert (Hin : category_id r ∈ Set_new (map category_id (r :: rest)))
      by (apply Set_new_elem; simpl; left).
    rewrite Hz in Hin. by apply elem_of_nil in Hin.
  - rewrite length_zero_iff_nil, filter_nil_iff, !Forall_forall. split.
    + intros Hall r Hr. apply Hall, Set_new_elem.
      by apply (list_elem_of_fmap_2 panchayath_id).
    + intros Hall x [r [-> Hr]]%Set_new_elem%list_elem_of_fmap. by apply Hall.
Qed.

Section RowOrder.
Context (host : Host).


End RowOrder.

(** ** The further properties at concrete inputs *)

Lemma rowsA_parseable : Forall (λ r, ¬ unparseable host3 r) rowsA.
Proof.
  assert (H5 : Date_parse host3 "2024-01-05" = Some 1704412800000)
    by (vm_compute; reflexivity).
  assert (H15 : Date_parse host3 "2024-01-15" = Some 1705276800000)
    by (vm_compute; reflexivity).
  apply Forall_cons_2; [|apply Forall_cons_2; [|apply Forall_nil_2]].
  - intros (s & Hs & _ & Hp). injection Hs as <-.
    rewrite H5 in Hp. discriminate Hp.
  - intros (s & Hs & _ & Hp). injection Hs as <-.
    rewrite H15 in Hp. discriminate Hp.
Defined.

Lemma mount_worldA_refs : refs_ok (mount worldA).
Proof. split; vm_compute; lia. Defined.

(** From 1 to 10 January against from 1 January on. *)
Lemma widening_keeps_rows_witness :
  let F := Some 1704047400000 in
  let T := Some 1704825000000 in
  let st' := setToDate None stateA in
  heap worldA !! registrations stateA = Some (ArrayObj rowsA) ∧
  registrations st' = registrations stateA ∧
  bound_at worldA (fromDate stateA) (Some <$> F) ∧
  bound_at worldA (toDate stateA) (Some <$> T) ∧
  bound_at worldA (fromDate st') (Some <$> F) ∧
  bound_at worldA (toDate st') (Some <$> None) ∧
  (∀ f e, F = Some f → T = Some e → dayStart host3 f ≤ dayEnd host3 e) ∧
  wider host3 F None F T ∧
  returns (filteredRegistrations host3 stateA) worldA (λ l w1,
    returns (filteredRegistrations host3 st') worldA (λ l' w2,
      ∃ kept kept', rowsAt w1 l = Some kept ∧ rowsAt w2 l' = Some kept' ∧
                    kept `sublist_of` kept')).
Proof.
  intros F T st'.
  assert (Hw : wider host3 F None F T) by (split; [apply Z.le_refl | exact I]).
  split_and!; [reflexivity | reflexivity | reflexivity | reflexivity
              | reflexivity | exact I | exact stateA_ordered | exact Hw |].
  exact (widening_keeps_rows host3 worldA stateA st' rowsA F T F None
           eq_refl eq_refl eq_refl eq_refl eq_refl I stateA_ordered Hw).
Defined.

(** From 1 to 10 January against each bound alone. *)
Lemma both_bounds_intersect_witness :
  let f := 1704047400000 in
  let e := 1704825000000 in
  heap worldA !! registrations stateA = Some (ArrayObj rowsA) ∧
  bound_at worldA (fromDate stateA) (Some (Some f)) ∧
  bound_at worldA (toDate stateA) (Some (Some e)) ∧
  dayStart host2 f ≤ dayEnd host2 e ∧
  returns (filteredRegistrations host2 stateA) worldA (λ l w1,
    returns (filteredRegistrations host2 (setToDate None stateA)) worldA (λ lf w2,
      returns (filteredRegistrations host2 (setFromDate None stateA)) worldA (λ lt w3,
        ∃ both onlyFrom onlyTo,
          rowsAt w1 l = Some both ∧ rowsAt w2 lf = Some onlyFrom ∧
          rowsAt w3 lt = Some onlyTo ∧
          ∀ r, r ∈ both ↔ r ∈ onlyFrom ∧ r ∈ onlyTo))).
Proof.
  intros f e.
  assert (Hord : dayStart host2 f ≤ dayEnd host2 e)
    by exact (stateA_ordered f e eq_refl eq_refl).
  split_and!; [reflexivity | reflexivity | reflexivity | exact Hord |].
  exact (both_bounds_intersect host2 worldA stateA rowsA f e
           eq_refl eq_refl eq_refl Hord).
Defined.

(** From 10 January to 1 January under date-fns 2. *)
Lemma date_fns2_invalid_interval_witness :
  let x := Some 1704825000000 in
  let y := Some 1704047400000 in
  date_fns host2 = DateFns2 ∧
  heap worldA !! registrations stateReversed = Some (ArrayObj rowsA) ∧
  bound_at worldA (fromDate stateReversed) (Some x) ∧
  bound_at worldA (toDate stateReversed) (Some y) ∧
  num_le (dayStart host2 <$> x) (dayEnd host2 <$> y) = false ∧
  Exists (λ r, truthy (approved_at r) = true) rowsA ∧
  filteredRegistrations host2 stateReversed worldA
  = Throw (RangeError "Invalid interval").
Proof.
  intros x y.
  assert (Hle : num_le (dayStart host2 <$> x) (dayEnd host2 <$> y) = false)
    by (vm_compute; reflexivity).
  assert (Hex : Exists (λ r, truthy (approved_at r) = true) rowsA)
    by (apply Exists_cons_hd; reflexivity).
  destruct (date_fns2_invalid_interval host2 worldA stateReversed rowsA x y
              eq_refl eq_refl eq_refl eq_refl Hle) as [Hthrow _].
  split_and!; [reflexivity | reflexivity | reflexivity | reflexivity
              | exact Hle | exact Hex | exact (Hthrow Hex)].
Defined.

(** From 1 to 10 January over rows of which one has a timestamp that cannot
    be parsed. *)
Lemma report_with_bounds_witness :
  let F := Some 1704047400000 in
  let T := Some 1704825000000 in
  heap worldBad !! registrations stateA = Some (ArrayObj rowsBad) ∧
  heap worldBad !! pendingRegistrations stateA = Some (ArrayObj pendingD) ∧
  bound_at worldBad (fromDate stateA) (Some <$> F) ∧
  bound_at worldBad (toDate stateA) (Some <$> T) ∧
  interval_ok host3 (Some <$> F) (Some <$> T) ∧
  loading stateA = false ∧ (is_Some F ∨ is_Some T) ∧
  returns (ReportsTab_render host3 formatDMY0530 stateA) worldBad (λ v w',
    grows worldBad w' ∧
    ∃ cards body,
      v = Report (buttonLabel formatDMY0530 F) (buttonLabel formatDMY0530 T)
            cards body ∧
      match body with
      | EmptyMessage msg =>
          msg = "No approved registrations found in the selected date range."
          ∧ r_totalRegistrations cards = 0%nat
      | Table trs =>
          trs ≠ [] ∧ length trs = r_totalRegistrations cards ∧
          Forall (λ tr, ∃ t, cell_approved_date tr = formatDMY0530 t) trs
      end).
Proof.
  intros F T.
  assert (Hok : interval_ok host3 (Some <$> F) (Some <$> T))
    by exact (interval_ok_3 host3 _ _ eq_refl).
  assert (Hset : is_Some F ∨ is_Some T) by (left; eexists; reflexivity).
  split_and!; [reflexivity | reflexivity | reflexivity | reflexivity
              | exact Hok | reflexivity | exact Hset |].
  exact (report_with_bounds host3 formatDMY0530 worldBad stateA rowsBad
           pendingD F T eq_refl eq_refl eq_refl eq_refl Hok eq_refl Hset).
Defined.

(** No bounds over the two rows of January. *)
Lemma report_without_bounds_witness :
  heap worldA !! registrations stateOpen = Some (ArrayObj rowsA) ∧
  heap worldA !! pendingRegistrations stateOpen = Some (ArrayObj pendingD) ∧
  fromDate stateOpen = None ∧ toDate stateOpen = None ∧
  loading stateOpen = false ∧
  Forall (λ r, ¬ unparseable host3 r) rowsA ∧
  returns (ReportsTab_render host3 formatDMY0530 stateOpen) worldA (λ v w',
    grows worldA w' ∧
    ∃ cards body,
      v = Report "Pick a date" "Pick a date" cards body ∧
      r_totalRegistrations cards = length rowsA ∧
      match body with
      | EmptyMessage msg =>
          msg = "Please select date range to view approved registrations."
          ∧ rowsA = []
      | Table trs => length trs = length rowsA ∧ rowsA ≠ []
      end).
Proof.
  destruct (report_without_bounds host3 formatDMY0530 worldA stateOpen rowsA
              pendingD eq_refl eq_refl eq_refl eq_refl eq_refl) as [Hgood _].
  split_and!; [reflexivity | reflexivity | reflexivity | reflexivity
              | reflexivity | exact rowsA_parseable
              | exact (Hgood rowsA_parseable)].
Defined.

(** From 1 to 10 January over the two rows of January. *)
Lemma table_matches_cards_witness :
  let F := Some 1704047400000 in
  let T := Some 1704825000000 in
  heap worldA !! registrations stateA = Some (ArrayObj rowsA) ∧
  heap worldA !! pendingRegistrations stateA = Some (ArrayObj pendingD) ∧
  bound_at worldA (fromDate stateA) (Some <$> F) ∧
  bound_at worldA (toDate stateA) (Some <$> T) ∧
  interval_ok host2 (Some <$> F) (Some <$> T) ∧
  Forall (λ r, ¬ unparseable host2 r) rowsA ∧
  returns (ReportsTab_render host2 formatDMY0530 stateA) worldA (λ v w',
    grows worldA w' ∧ consistent v ∧ (v = Spinner ↔ loading stateA = true)).
Proof.
  intros F T.
  assert (Hok : interval_ok host2 (Some <$> F) (Some <$> T))
    by exact (ordered_interval_ok host2 F T stateA_ordered).
  split_and!; [reflexivity | reflexivity | reflexivity | reflexivity
              | exact Hok | exact rowsA_parseable |].
  exact (table_matches_cards host2 formatDMY0530 worldA stateA rowsA pendingD
           F T eq_refl eq_refl eq_refl eq_refl Hok rowsA_parseable).
Defined.

(** The approved query is rejected and the pending query delivers two
    rows. *)
Lemma arrival_order_irrelevant_witness :
  let s := mount worldA in
  let ra := Rejected "Failed to fetch" in
  let rp := Resolved (Some pendingD) None in
  refs_ok s ∧
  (∀ order,
     observe (useEffect order ra rp s) =
       {| o_loading := false;
          o_from := o_from (observe s); o_to := o_to (observe s);
          o_approved := loaded ra (o_approved (observe s));
          o_pending := loaded rp (o_pending (observe s));
          o_toasts := o_toasts (observe s) ++ notified ra;
          o_console := o_console (observe s) |}) ∧
  scr_errors (useEffect ApprovedFirst ra rp s)
    ≡ₚ scr_errors (useEffect PendingFirst ra rp s).
Proof.
  intros s ra rp. split; [exact mount_worldA_refs|].
  exact (arrival_order_irrelevant s ra rp mount_worldA_refs).
Defined.

(** The approved query delivers the two rows of January and the pending
    query fails. *)
Lemma screen_after_loading_witness :
  let ra := Resolved (Some rowsA) None in
  let rp := Rejected "Failed to fetch" in
  let prows : list Registration := [] in
  loaded ra (Some []) = Some rowsA ∧ loaded rp (Some []) = Some prows ∧
  Forall (λ r, ¬ unparseable host3 r) rowsA ∧
  let s := useEffect PendingFirst ra rp (mount worldA) in
  toasts (scr_world s) = toasts worldA ++ notified ra ∧
  (is_Some (failure ra) → rowsA = []) ∧
  returns (ReportsTab_render host3 formatDMY0530 (scr_state s)) (scr_world s)
    (λ v _,
    ∃ cards body,
      v = Report "Pick a date" "Pick a date" cards body ∧
      r_totalRegistrations cards = length rowsA ∧
      r_totalFeesCollected cards = totalFeesCollected rowsA ∧
      r_pendingAmount cards = pendingAmount prows ∧
      match body with
      | EmptyMessage msg =>
          msg = "Please select date range to view approved registrations."
          ∧ rowsA = []
      | Table trs => length trs = length rowsA ∧ rowsA ≠ []
      end).
Proof.
  intros ra rp prows.
  split; [reflexivity|]. split; [reflexivity|].
  split; [exact rowsA_parseable|].
  exact (screen_after_loading host3 formatDMY0530 worldA PendingFirst ra rp
           rowsA prows eq_refl eq_refl rowsA_parseable).
Defined.

(** Scenario E: the approved query fails and the pending one delivers fees
    50 and 75. One error notification, no registrations, and the message in
    place of the table. *)
Example scenario_E :
  let ra := Resolved None (Some "permission denied") in
  let rp := Resolved (Some pendingD) None in
  let s := useEffect ApprovedFirst ra rp (mount worldA) in
  toasts (scr_world s) = [ToastError "Error fetching registrations"] ∧
  returns (ReportsTab_render host3 formatDMY0530 (scr_state s)) (scr_world s)
    (λ v _,
      ∃ cards,
        v = Report "Pick a date" "Pick a date" cards
              (EmptyMessage
                 "Please select date range to view approved registrations.") ∧
        r_totalRegistrations cards = 0%nat ∧
        r_totalFeesCollected cards = 0%float ∧
        r_pendingAmount cards = 125%float).
Proof.
  intros ra rp s. split; [vm_compute; reflexivity|].
  apply (proj2 (returns_eq _ _ _)).
  eexists _, _. split; [vm_compute; reflexivity|].
  eexists. split; [reflexivity|]. split; [reflexivity|].
  split; vm_compute; reflexivity.
Qed.

(** The render from 1 to 10 January under date-fns 2. *)
Lemma upgrade_keeps_render_witness :
  date_fns host2 = DateFns2 ∧
  ∃ r, ReportsTab_render host2 formatDMY0530 stateA worldA = Ok r ∧
       ReportsTab_render (upgrade host2) formatDMY0530 stateA worldA = Ok r.
Proof.
  split; [reflexivity|]. eexists.
  assert (Hrun : ReportsTab_render host2 formatDMY0530 stateA worldA = Ok _)
    by (vm_compute; reflexivity).
  split; [exact Hrun|].
  exact (upgrade_keeps_render host2 formatDMY0530 stateA worldA _ eq_refl Hrun).
Defined.

